(** * Millionaire game server: hot-seat grading and the game flow driver

    A shallow embedding of the four answer slots ([Choices]), of
    [server/question/HotSeatQuestion.js] and of [server/game/GameServer.js],
    with the properties their specification states about them.

    Conventions of the embedding.
    - A JavaScript number that the program uses as an index, a slot or a
      duration is a [Z].  Its arithmetic is the arithmetic of integers,
      which is that of the program as long as the numbers are safe
      integers ([is_safe_integer]); a property that computes with a number
      of any size assumes that.  A value that may be [undefined] is an
      [option]; [None] is [undefined].
    - Reading an array out of range, or at the key [undefined], yields
      [undefined] ([js_get], [js_get_at]).
    - An object used as a record of named fields is a [gmap string _]. *)

From Stdlib Require Import ZArith Lia.
From stdpp Require Import base decidable option list strings gmap pretty.

Local Open Scope Z_scope.

(** ** JavaScript arrays *)

(** [arr[i]] for a number [i]. *)
Definition js_get {A : Type} (arr : list A) (i : Z) : option A :=
  if decide (0 ≤ i) then arr !! Z.to_nat i else None.

(** [arr[k]] where the key itself may be [undefined]. *)
Definition js_get_at {A : Type} (arr : list A) (k : option Z) : option A :=
  match k with
  | Some i => js_get arr i
  | None => None
  end.

(** [x !== undefined]. *)
Definition is_defined {A : Type} (x : option A) : bool :=
  match x with
  | Some _ => true
  | None => false
  end.

(** ** JavaScript numbers *)

(** [Number.MAX_SAFE_INTEGER], 2^53 - 1. *)
Definition MAX_SAFE_INTEGER : Z := 9007199254740991.

(** [Number.isSafeInteger(n)] for an integer [n]: sums, differences and
    remainders of such numbers are exact while their result is one too. *)
Definition is_safe_integer (n : Z) : Prop :=
  - MAX_SAFE_INTEGER ≤ n ≤ MAX_SAFE_INTEGER.

(** Values that travel through a socket.  No induction over them is needed
    here, so no elimination scheme is generated for this nested type. *)
#[local] Unset Elimination Schemes.
Inductive json :=
| JUndefined
| JBool (b : bool)
| JNum (n : Z)
| JStr (s : string)
| JArr (l : list json)
| JObj (l : list (string * json)).
#[local] Set Elimination Schemes.

Definition json_of_num (x : option Z) : json :=
  match x with
  | Some n => JNum n
  | None => JUndefined
  end.

(** ** Choices: the four answer slots *)

Module Choices.

Definition A : Z := 0.
Definition B : Z := 1.
Definition C : Z := 2.
Definition D : Z := 3.
Definition MAX_CHOICES : Z := 4.
Definition VALID_CHOICES : gset Z := {[ A; B; C; D ]}.
Definition toStringMap : list string := ["A"; "B"; "C"; "D"]%string.

(** [VALID_CHOICES.has(choice)]; [undefined] is not a member. *)
Definition isValidChoice (choice : option Z) : bool :=
  match choice with
  | Some c => bool_decide (c ∈ VALID_CHOICES)
  | None => false
  end.

Definition getString (choice : option Z) : string :=
  if isValidChoice choice
  then default ""%string (js_get_at toStringMap choice)
  else ""%string.

End Choices.

(** ** HotSeatQuestion.js *)

Module HotSeatQuestion.

Definition PAYOUTS : list Z :=
  [100; 200; 300; 500; 1000; 2000; 4000; 8000; 16000; 32000; 64000;
   125000; 250000; 500000; 1000000].

Definition FINAL_ANSWER_WAIT_TIMES : list Z :=
  [1000; 1000; 1000; 1000; 1500; 3000; 3000; 3000; 3000; 4000; 5000;
   5000; 5000; 5000; 7500].

Definition CORRECT_WAIT_TIMES : list Z :=
  [1000; 1000; 1000; 1000; 8000; 5000; 5000; 5000; 5000; 8000; 7000;
   7000; 7000; 7000; 24000].

Definition QUESTION_TEXT_WAIT_TIMES : list Z :=
  [7000; 1000; 1000; 1000; 1000; 7000; 7000; 7000; 7000; 7000; 7000;
   7000; 7000; 7000; 7000].

(** [%] is JavaScript's remainder, which truncates: [Z.rem].  The sum and
    the differences are exact on the safe integers. *)
Definition getSafeHavenIndex (failedIndex : Z) : Z :=
  let oneIndexed := Z.max 0 failedIndex + 1 in
  oneIndexed - (Z.rem oneIndexed 5) - 1.

Section Question.

(** [T] is the type of the entries of [orderedChoices] and
    [shuffledChoices], [E] the type of the defined entries of
    [revealedChoices].  Both arrays of choices hold primitive values of
    one type, so [==] on two of them is equality, and [==] between
    [undefined] and a defined entry is false. *)
Context {T E : Type} `{EqDecision T}.

(** The fields of a hot seat question.  The first four are inherited
    from [Question]. *)
Record t := mk {
  orderedChoices : list T;
  shuffledChoices : list T;
  revealedChoices : list (option E);
  startTime : option Z;
  correctChoiceRevealedForShowHost : bool;
  correctChoiceRevealedForAll : bool;
  questionIndex : Z
}.

(** [constructor(hsqJson, questionIndex = 0)], on the fields [super(hsqJson)]
    has set. *)
Definition constructor (super : t) (questionIndex : option Z) : t :=
  mk (orderedChoices super) (shuffledChoices super) (revealedChoices super)
     (startTime super) false false (default 0 questionIndex).

(** [x == y] on array reads. *)
Definition loose_eq (x y : option T) : bool := bool_decide (x = y).

Definition answerIsCorrect (q : t) (answer : option Z) : bool :=
  loose_eq (js_get_at (shuffledChoices q) answer)
           (js_get (orderedChoices q) 0).

(** The [for] loop of [getShuffledChoice], from index [i] on, over the
    part [rest] of [shuffledChoices] not yet visited. *)
Fixpoint getShuffledChoice_loop
    (target : option T) (rest : list T) (i : Z) : option Z :=
  match rest with
  | [] => None
  | x :: rest' =>
      if loose_eq (Some x) target then Some i
      else getShuffledChoice_loop target rest' (i + 1)
  end.

Definition getShuffledChoice (q : t) (orderedIndex : Z) : option Z :=
  getShuffledChoice_loop
    (js_get (orderedChoices q) orderedIndex) (shuffledChoices q) 0.

Definition getCorrectChoice (q : t) : option Z := getShuffledChoice q 0.

(** [revealedChoices[k]]: a hole, an entry out of range and the key
    [undefined] all read as [undefined]. *)
Definition revealedChoice_at (q : t) (k : option Z) : option E :=
  mjoin (js_get_at (revealedChoices q) k).

(** The body of the [forEach] callback, which pushes onto [remaining]. *)
Definition remaining_step (q : t) (remaining : list Z) (index : Z)
    : list Z :=
  if is_defined (revealedChoice_at q (getShuffledChoice q index))
  then remaining ++ [index]
  else remaining.

(** The indexes [forEach] visits: [0 .. orderedChoices.length - 1]. *)
Definition orderedIndexes (q : t) : list Z :=
  Z.of_nat <$> seq 0 (length (orderedChoices q)).

Definition getRemainingOrderedChoiceIndexes (q : t) : list Z :=
  fold_left (remaining_step q) (orderedIndexes q) [].

(** Modelled from the spec: the reveal state is kept by [Question.js],
    which is not among the sources.  [revealedChoices] maps a presented
    slot to revealed-or-not: the choice of true rank [index] is
    revealed once the slot that presents it holds an entry. *)
Definition isRevealed (q : t) (index : Z) : bool :=
  is_defined (revealedChoice_at q (getShuffledChoice q index)).

(** The indexes of the choices not yet revealed, in true-rank order. *)
Definition spec_notYetRevealedIndexes (q : t) : list Z :=
  filter (λ index, isRevealed q index = false) (orderedIndexes q).

Definition revealCorrectChoiceForShowHost (q : t) : t :=
  mk (orderedChoices q) (shuffledChoices q) (revealedChoices q)
     (startTime q) true (correctChoiceRevealedForAll q) (questionIndex q).

Definition revealCorrectChoiceForAll (q : t) : t :=
  mk (orderedChoices q) (shuffledChoices q) (revealedChoices q)
     (startTime q) (correctChoiceRevealedForShowHost q) true
     (questionIndex q).

(** [Question.js] is not part of the sources at hand: the methods a hot
    seat question inherits from it are an interface. *)
Class QuestionBase := {
  (** [super.toCompressed(madeChoices)] *)
  Question_toCompressed : t → list (option Z) → gmap string json;
  Question_revealChoice : t → t;
  Question_allChoicesRevealed : t → bool;
  (** [markStartTime()], given the time it reads from the clock *)
  Question_markStartTime : Z → t → t
}.

Context {base : QuestionBase}.

Definition toCompressed
    (q : t) (madeChoice : option Z) (showCorrectChoice : bool)
    : gmap string json :=
  let compressed := Question_toCompressed q [madeChoice] in
  let compressed :=
    if showCorrectChoice
    then <["correctChoice" := json_of_num (getCorrectChoice q)]> compressed
    else compressed in
  <["choiceLocked" := JBool (is_defined madeChoice)]> compressed.

End Question.

Arguments t : clear implicits.
Arguments QuestionBase : clear implicits.

End HotSeatQuestion.

(** ** StepDialog.js *)

Module StepDialog.

(** One entry of [actions]: [{ socketEvent, text }]. *)
Record action := Action {
  socketEvent : string;
  text : string
}.

(** The only function [GameServer] passes as [timeoutFunc] is the closure
    [() => { this[data.nextSocketEvent]({}, data.nextSocketEvent) }];
    it is represented by the name it captures. *)
Inductive closure :=
| InvokeListener (nextSocketEvent : string).

(** Modelled from the spec: [StepDialog.js] is not among the sources.  A
    StepDialog has [actions] (ordered list of event and label pairs
    offered to a human), [timeoutFunc] and [timeoutMs] (the alternative
    automatic advance) and an optional [header]; the constructor
    [new StepDialog(actions, timeoutFunc, timeoutMs, header)] stores its
    arguments, and an argument left out is [undefined]. *)
Record t := new {
  actions : list action;
  timeoutFunc : option closure;
  timeoutMs : option Z;
  header : option string
}.

End StepDialog.

(** ** GameServer.js *)

Module GameServer.

(** Modelled from the spec: [GameServer.js] reads these two tables
    through [Question.js], which is not among the sources; the tables
    indexed by the hot seat question index are the ones
    [HotSeatQuestion.js] declares and exports. *)
Definition FINAL_ANSWER_WAIT_TIMES : list Z :=
  HotSeatQuestion.FINAL_ANSWER_WAIT_TIMES.
Definition CORRECT_WAIT_TIMES : list Z :=
  HotSeatQuestion.CORRECT_WAIT_TIMES.

Definition SOCKET_EVENTS : list string := [
  "showHostShowFastestFingerRules";
  "showHostCueFastestFingerQuestion";
  "showHostShowFastestFingerQuestionText";
  "showHostCueFastestFingerThreeStrikes";
  "showHostRevealFastestFingerQuestionChoices";
  "contestantFastestFingerChoose";
  "fastestFingerTimeUp";
  "showHostCueFastestFingerAnswerRevealAudio";
  "showHostRevealFastestFingerAnswer";
  "showHostRevealFastestFingerResults";
  "showHostAcceptHotSeatPlayer";
  "showHostCueHotSeatRules";
  "showHostHighlightLifeline";
  "showHostCueHotSeatQuestion";
  "showHostShowHotSeatQuestionText";
  "showHostRevealHotSeatChoice";
  "showHostAskTheAudience";
  "showHostDoFiftyFifty";
  "showHostPhoneAFriend";
  "showHostRevealHotSeatQuestionVictory";
  "showHostRevealHotSeatQuestionLoss";
  "showHostShowScores";
  "contestantChoose";
  "contestantSetConfidence";
  "hotSeatChoose";
  "hotSeatFinalAnswer";
  "hotSeatUseLifeline";
  "hotSeatConfirmLifeline";
  "hotSeatPickPhoneAFriend"
]%string.

(** What a listener receives as [data]: nothing at all ([undefined]), or
    an object whose [choice] field may be missing.  Reading [.choice] of a
    string (the closure of a StepDialog passes the event name as [data])
    yields [undefined] as well, so such a [data] is [Data None]. *)
Inductive payload :=
| NoData
| Data (choice : option Z).

(** [String(x)] for a choice, as [+] builds it in a log message: all the
    digits of the number, as [String] gives them below 1e21. *)
Definition choice_to_string (c : option Z) : string :=
  match c with
  | Some n => pretty n
  | None => "undefined"
  end.

(** The three functions the class hands to [setTimeout].  The first two
    pass the [data] they captured in the place of [socket], to listeners
    that use neither argument. *)
Inductive timerCallback :=
| CallRevealFastestFingerQuestionChoices
| CallFastestFingerTimeUp
| CallVictoryContinuation.

(** The fields of a player that [GameServer] reads or writes. *)
Record Player := mkPlayer {
  username : string;
  fastestFingerChoices : list Z;
  fastestFingerScore : option Z;
  hotSeatChoice : option Z
}.

Definition with_fastestFingerScore (s : option Z) (p : Player) : Player :=
  mkPlayer (username p) (fastestFingerChoices p) s (hotSeatChoice p).

Record banner := Banner {
  banner_header : string;
  banner_text : option string
}.

(** The argument of [_getOneChoiceHostStepDialog]. *)
Record oneChoiceData := OneChoice {
  nextSocketEvent : string;
  hostButtonMessage : string;
  aiTimeout : option Z
}.

Inductive error :=
| TypeError (what : string)
| SessionError.

Inductive result (A : Type) :=
| Ok (a : A)
| Throw (e : error).
Arguments Ok {A} a.
Arguments Throw {A} e.

Section Game.

(** [T] and [E] are the entry types of a question's arrays (see
    [HotSeatQuestion.t]); [FFQ], [FFSession] and [HSSession] stand for
    the objects of [FastestFingerQuestion.js], [FastestFingerSession.js]
    and [HotSeatSession.js]. *)
Context {T E FFQ FFSession HSSession : Type} `{EqDecision T}.

Abbreviation HSQ := (HotSeatQuestion.t T E).

(** Modelled from the spec: [ServerState.js] is not among the sources.
    A ServerState holds the celebration banner, the show host's and the
    hot seat player's StepDialog, the active fastest finger and hot
    seat questions, the hot seat question index and a reference to the
    hot seat player; [showHost] is the reference to the human show
    host, if any.  A reference to a player is the key of that player in
    the player map, so that a change made through the reference is a
    change of the player the map holds.  The [set...] methods assign
    the field they name, and [playerShowHostPresent()] tells whether
    [showHost] is set. *)
Record ServerState := mkServerState {
  showHost : option nat;
  hotSeatPlayer : option nat;
  showHostStepDialog : option StepDialog.t;
  hotSeatStepDialog : option StepDialog.t;
  fastestFingerQuestion : option FFQ;
  hotSeatQuestion : option HSQ;
  hotSeatQuestionIndex : Z;
  celebrationBanner : option banner
}.

Definition playerShowHostPresent (ss : ServerState) : bool :=
  is_defined (showHost ss).

Definition setShowHostStepDialog
    (d : option StepDialog.t) (ss : ServerState) : ServerState :=
  mkServerState (showHost ss) (hotSeatPlayer ss) d (hotSeatStepDialog ss)
    (fastestFingerQuestion ss) (hotSeatQuestion ss)
    (hotSeatQuestionIndex ss) (celebrationBanner ss).

Definition setHotSeatStepDialog
    (d : option StepDialog.t) (ss : ServerState) : ServerState :=
  mkServerState (showHost ss) (hotSeatPlayer ss) (showHostStepDialog ss) d
    (fastestFingerQuestion ss) (hotSeatQuestion ss)
    (hotSeatQuestionIndex ss) (celebrationBanner ss).

Definition setCelebrationBanner
    (b : option banner) (ss : ServerState) : ServerState :=
  mkServerState (showHost ss) (hotSeatPlayer ss) (showHostStepDialog ss)
    (hotSeatStepDialog ss) (fastestFingerQuestion ss) (hotSeatQuestion ss)
    (hotSeatQuestionIndex ss) b.

(** Assignments to the fields [GameServer] writes directly. *)
Definition with_fastestFingerQuestion
    (q : option FFQ) (ss : ServerState) : ServerState :=
  mkServerState (showHost ss) (hotSeatPlayer ss) (showHostStepDialog ss)
    (hotSeatStepDialog ss) q (hotSeatQuestion ss)
    (hotSeatQuestionIndex ss) (celebrationBanner ss).

Definition with_hotSeatQuestion
    (q : option HSQ) (ss : ServerState) : ServerState :=
  mkServerState (showHost ss) (hotSeatPlayer ss) (showHostStepDialog ss)
    (hotSeatStepDialog ss) (fastestFingerQuestion ss) q
    (hotSeatQuestionIndex ss) (celebrationBanner ss).

Definition with_hotSeatQuestionIndex
    (i : Z) (ss : ServerState) : ServerState :=
  mkServerState (showHost ss) (hotSeatPlayer ss) (showHostStepDialog ss)
    (hotSeatStepDialog ss) (fastestFingerQuestion ss) (hotSeatQuestion ss)
    i (celebrationBanner ss).

(** The fields the constructor of [GameServer] declares.  The player map
    is keyed by the socket of each player. *)
Record t := mk {
  playerMap : gmap nat Player;
  serverState : option ServerState;
  fastestFingerSession : FFSession;
  hotSeatSession : HSSession;
  currentForcedTimer : option nat;
  currentSocketEvent : option string
}.

(** What is sent to the clients: [updateGame] to every player, or to one
    socket, computed from the server state and the current event. *)
Inductive emission :=
| UpdateGameForAll (ss : ServerState) (ev : option string)
| UpdateGameFor (socket : nat) (ss : ServerState) (ev : option string).

(** What lies around the game server: the timers [setTimeout] has armed
    and that neither fired nor were cleared, the next timer handle, the
    clock, the lines given to [Logger.logInfo] and the messages
    emitted, the latest first. *)
Record env := mkEnv {
  timers : gmap nat (timerCallback * Z);
  nextTimer : nat;
  now : Z;
  logged : list string;
  emitted : list emission
}.

Definition world : Type := t * env.

(** A method runs on the world and returns or throws; what it changed
    before it threw stays changed. *)
Definition M (A : Type) : Type := world → result A * world.

#[export] Instance M_ret : MRet M := λ A a w, (Ok a, w).
#[export] Instance M_bind : MBind M := λ A B f m w,
  match m w with
  | (Ok a, w') => f a w'
  | (Throw e, w') => (Throw e, w')
  end.

Definition throw {A : Type} (e : error) : M A := λ w, (Throw e, w).
Definition get_this : M t := λ w, (Ok (fst w), w).
Definition modify_this (f : t → t) : M unit :=
  λ w, (Ok (), (f (fst w), snd w)).
Definition get_env : M env := λ w, (Ok (snd w), w).
Definition modify_env (f : env → env) : M unit :=
  λ w, (Ok (), (fst w, f (snd w))).

Definition with_playerMap (pm : gmap nat Player) (g : t) : t :=
  mk pm (serverState g) (fastestFingerSession g) (hotSeatSession g)
     (currentForcedTimer g) (currentSocketEvent g).
Definition with_serverState (ss : option ServerState) (g : t) : t :=
  mk (playerMap g) ss (fastestFingerSession g) (hotSeatSession g)
     (currentForcedTimer g) (currentSocketEvent g).
Definition with_fastestFingerSession (s : FFSession) (g : t) : t :=
  mk (playerMap g) (serverState g) s (hotSeatSession g)
     (currentForcedTimer g) (currentSocketEvent g).
Definition with_hotSeatSession (s : HSSession) (g : t) : t :=
  mk (playerMap g) (serverState g) (fastestFingerSession g) s
     (currentForcedTimer g) (currentSocketEvent g).
Definition with_currentForcedTimer (h : option nat) (g : t) : t :=
  mk (playerMap g) (serverState g) (fastestFingerSession g)
     (hotSeatSession g) h (currentSocketEvent g).
Definition with_currentSocketEvent (ev : option string) (g : t) : t :=
  mk (playerMap g) (serverState g) (fastestFingerSession g)
     (hotSeatSession g) (currentForcedTimer g) ev.

Definition with_timers (ts : gmap nat (timerCallback * Z)) (e : env)
    : env :=
  mkEnv ts (nextTimer e) (now e) (logged e) (emitted e).
Definition with_nextTimer (n : nat) (e : env) : env :=
  mkEnv (timers e) n (now e) (logged e) (emitted e).
Definition with_logged (l : list string) (e : env) : env :=
  mkEnv (timers e) (nextTimer e) (now e) l (emitted e).
Definition with_emitted (l : list emission) (e : env) : env :=
  mkEnv (timers e) (nextTimer e) (now e) (logged e) l.

(** *** Collaborators

    The methods of the objects a game server works with whose code is
    outside [GameServer.js] and [HotSeatQuestion.js]: every property
    below holds whatever these methods do. *)
Class Collaborators := {
  (** [FastestFingerQuestion.js] *)
  ffq_revealAllChoices : FFQ → FFQ;
  ffq_markStartTime : Z → FFQ → FFQ;
  ffq_revealAnswer : FFQ → FFQ;
  ffq_revealedAllAnswers : FFQ → bool;
  ffq_getAnswerScore : FFQ → list Z → Z;
  (** [Question.js] *)
  #[global] question_base :: HotSeatQuestion.QuestionBase T E;
  MONEY_STRINGS : list string;
  (** [getNewQuestion] of the two sessions; [None] when it throws *)
  ffs_getNewQuestion : FFSession → option (FFQ * FFSession);
  hss_getNewQuestion : HSSession → Z → option (HSQ * HSSession);
  (** [Player.js] *)
  chooseFastestFinger : option Z → Player → Player;
  chooseHotSeat : option Z → Player → Player;
  clearAllAnswers : Player → Player;
  (** [ServerState.js]: the methods that work on the state and on the
      player map it was built with *)
  startNewRound :
    ServerState → gmap nat Player → ServerState * gmap nat Player;
  resetFastestFinger :
    ServerState → gmap nat Player → ServerState * gmap nat Player;
  resetHotSeatQuestion :
    ServerState → gmap nat Player → ServerState * gmap nat Player;
  allPlayersDoneWithFastestFinger :
    ServerState → gmap nat Player → bool;
  (** [LocalizedStrings.js] *)
  YES : string;
  NO : string;
  HOT_SEAT_FINAL_ANSWER : string;
  CUE_FASTEST_FINGER_MUSIC : string;
  SHOW_FASTEST_FINGER_QUESTION : string;
  REVEAL_FASTEST_FINGER_CHOICE : string;
  CUE_FASTEST_FINGER_ANSWER_REVEAL_AUDIO : string;
  REVEAL_FASTEST_FINGER_ANSWER : string;
  REVEAL_FASTEST_FINGER_RESULTS : string;
  ACCEPT_HOT_SEAT_PLAYER : string;
  FASTEST_FINGER_WINNER : string;
  SHOW_HOT_SEAT_RULES : string;
  CUE_HOT_SEAT_QUESTION : string;
  SHOW_HOT_SEAT_QUESTION : string;
  REVEAL_HOT_SEAT_CHOICE : string;
  HOT_SEAT_VICTORY : string;
  HOT_SEAT_LOSS : string
}.

Context {collaborators : Collaborators}.

(** *** Reading and writing through [this] *)

(** [this.serverState.…]: a TypeError when there is no server state. *)
Definition the_serverState : M ServerState :=
  g ← get_this;
  match serverState g with
  | Some ss => mret ss
  | None => throw (TypeError "this.serverState is undefined")
  end.

Definition modify_serverState (f : ServerState → ServerState) : M unit :=
  ss ← the_serverState;
  modify_this (with_serverState (Some (f ss))).

(** [this.serverState.fastestFingerQuestion.…] *)
Definition the_fastestFingerQuestion : M FFQ :=
  ss ← the_serverState;
  match fastestFingerQuestion ss with
  | Some q => mret q
  | None => throw (TypeError "fastestFingerQuestion is undefined")
  end.

(** [this.serverState.hotSeatQuestion.…] *)
Definition the_hotSeatQuestion : M HSQ :=
  ss ← the_serverState;
  match hotSeatQuestion ss with
  | Some q => mret q
  | None => throw (TypeError "hotSeatQuestion is undefined")
  end.

(** A method call on the player a reference leads to; a reference that
    is [undefined] or leads nowhere is a TypeError. *)
Definition the_player (ref : option nat) : M (nat * Player) :=
  g ← get_this;
  match ref with
  | Some k =>
      match playerMap g !! k with
      | Some p => mret (k, p)
      | None => throw (TypeError "player is undefined")
      end
  | None => throw (TypeError "player is undefined")
  end.

Definition modify_player (k : nat) (f : Player → Player) : M unit :=
  modify_this (λ g, with_playerMap (alter f k (playerMap g)) g).

(** [this.serverState.hotSeatPlayer.…] *)
Definition the_hotSeatPlayer : M (nat * Player) :=
  ss ← the_serverState;
  the_player (hotSeatPlayer ss).

(** [data.choice] *)
Definition choice_of (data : payload) : M (option Z) :=
  match data with
  | Data c => mret c
  | NoData => throw (TypeError "data is undefined")
  end.

Definition logInfo (line : string) : M unit :=
  modify_env (λ e, with_logged (line :: logged e) e).

Definition emit (m : emission) : M unit :=
  modify_env (λ e, with_emitted (m :: emitted e) e).

(** [this.currentSocketEvent = ev; Logger.logInfo(this.currentSocketEvent);] *)
Definition enter (ev : string) : M unit :=
  modify_this (with_currentSocketEvent (Some ev));;
  logInfo ev.

(** [setTimeout(callback, timeoutMs)] returns a fresh handle. *)
Definition setTimeout (callback : timerCallback) (timeoutMs : Z) : M nat :=
  e ← get_env;
  let h := nextTimer e in
  modify_env (λ e,
    with_nextTimer (S h)
      (with_timers (<[h := (callback, timeoutMs)]> (timers e)) e));;
  mret h.

(** [clearTimeout(handle)]; nothing happens for [undefined]. *)
Definition clearTimeout (handle : option nat) : M unit :=
  match handle with
  | Some h => modify_env (λ e, with_timers (delete h (timers e)) e)
  | None => mret ()
  end.

(** *** Private methods *)

Definition _getOneChoiceHostStepDialog (data : oneChoiceData)
    : M StepDialog.t :=
  ss ← the_serverState;
  if playerShowHostPresent ss then
    mret (StepDialog.new
            [StepDialog.Action (nextSocketEvent data)
                               (hostButtonMessage data)]
            None None None)
  else
    mret (StepDialog.new
            []
            (Some (StepDialog.InvokeListener (nextSocketEvent data)))
            (aiTimeout data)
            None).

Definition _getYesNoDialog (yesEvent noEvent : string)
    (header : option string) : StepDialog.t :=
  StepDialog.new
    [StepDialog.Action yesEvent YES; StepDialog.Action noEvent NO]
    None None header.

(** [emitCustomToAll] computes, for the socket of every player, the client
    state from [this.serverState] and [this.currentSocketEvent].  Every
    caller has gone through [this.serverState] just before. *)
Definition _updateGame : M unit :=
  ss ← the_serverState;
  g ← get_this;
  emit (UpdateGameForAll ss (currentSocketEvent g)).

(** *** Public methods *)

Definition isInGame : M bool :=
  g ← get_this;
  mret (is_defined (serverState g)).

Definition updateGameForSocket (socket : nat) : M unit :=
  ss ← the_serverState;
  g ← get_this;
  emit (UpdateGameFor socket ss (currentSocketEvent g)).

(** [this.serverState.setShowHostStepDialog(
       this._getOneChoiceHostStepDialog(data))] *)
Definition setOneChoiceHostStepDialog (data : oneChoiceData) : M unit :=
  d ← _getOneChoiceHostStepDialog data;
  modify_serverState (setShowHostStepDialog (Some d)).

(** *** Socket listeners

    Every listener has the parameters [(socket, data)].  [socket] is
    [None] when the caller passed something that is not the socket of a
    player (the closure of a StepDialog passes [{}], a forced timer
    passes its [data]). *)

Definition showHostShowFastestFingerRules
    (socket : option nat) (data : payload) : M unit :=
  enter "showHostShowFastestFingerRules";;
  ss ← the_serverState;
  g ← get_this;
  let '(ss', pm') := startNewRound ss (playerMap g) in
  modify_this (λ g, with_serverState (Some ss') (with_playerMap pm' g));;
  setOneChoiceHostStepDialog
    (OneChoice "showHostCueFastestFingerQuestion"
               CUE_FASTEST_FINGER_MUSIC (Some 5000));;
  _updateGame.

Definition showHostCueFastestFingerQuestion
    (socket : option nat) (data : payload) : M unit :=
  enter "showHostCueFastestFingerQuestion";;
  setOneChoiceHostStepDialog
    (OneChoice "showHostShowFastestFingerQuestionText"
               SHOW_FASTEST_FINGER_QUESTION (Some 3000));;
  _updateGame.

Definition showHostShowFastestFingerQuestionText
    (socket : option nat) (data : payload) : M unit :=
  enter "showHostShowFastestFingerQuestionText";;
  g ← get_this;
  match ffs_getNewQuestion (fastestFingerSession g) with
  | None => throw SessionError
  | Some (q, session') =>
      modify_this (with_fastestFingerSession session');;
      modify_serverState (with_fastestFingerQuestion (Some q));;
      setOneChoiceHostStepDialog
        (OneChoice "showHostCueFastestFingerThreeStrikes"
                   REVEAL_FASTEST_FINGER_CHOICE (Some 8000));;
      _updateGame
  end.

Definition showHostCueFastestFingerThreeStrikes
    (socket : option nat) (data : payload) : M unit :=
  enter "showHostCueFastestFingerThreeStrikes";;
  modify_serverState (setShowHostStepDialog None);;
  _updateGame;;
  h ← setTimeout CallRevealFastestFingerQuestionChoices 2500;
  modify_this (with_currentForcedTimer (Some h)).

Definition showHostRevealFastestFingerQuestionChoices
    (socket : option nat) (data : payload) : M unit :=
  enter "showHostRevealFastestFingerQuestionChoices";;
  q ← the_fastestFingerQuestion;
  e ← get_env;
  modify_serverState
    (with_fastestFingerQuestion
       (Some (ffq_markStartTime (now e) (ffq_revealAllChoices q))));;
  _updateGame;;
  h ← setTimeout CallFastestFingerTimeUp 10000;
  modify_this (with_currentForcedTimer (Some h)).

Definition fastestFingerTimeUp
    (socket : option nat) (data : payload) : M unit :=
  enter "fastestFingerTimeUp";;
  g ← get_this;
  clearTimeout (currentForcedTimer g);;
  setOneChoiceHostStepDialog
    (OneChoice "showHostCueFastestFingerAnswerRevealAudio"
               CUE_FASTEST_FINGER_ANSWER_REVEAL_AUDIO (Some 2500));;
  _updateGame.

Definition contestantFastestFingerChoose
    (socket : option nat) (data : payload) : M unit :=
  c ← choice_of data;
  logInfo ("contestantFastestFingerChoose: " +:+ choice_to_string c);;
  '(k, _) ← the_player socket;
  modify_player k (chooseFastestFinger c);;
  updateGameForSocket k;;
  ss ← the_serverState;
  g ← get_this;
  if allPlayersDoneWithFastestFinger ss (playerMap g)
  then fastestFingerTimeUp socket data
  else mret ().

Definition showHostCueFastestFingerAnswerRevealAudio
    (socket : option nat) (data : payload) : M unit :=
  enter "showHostCueFastestFingerAnswerRevealAudio";;
  setOneChoiceHostStepDialog
    (OneChoice "showHostRevealFastestFingerAnswer"
               REVEAL_FASTEST_FINGER_ANSWER (Some 2500));;
  _updateGame.

Definition showHostRevealFastestFingerAnswer
    (socket : option nat) (data : payload) : M unit :=
  enter "showHostRevealFastestFingerAnswer";;
  q ← the_fastestFingerQuestion;
  let q' := ffq_revealAnswer q in
  modify_serverState (with_fastestFingerQuestion (Some q'));;
  (if ffq_revealedAllAnswers q' then
     setOneChoiceHostStepDialog
       (OneChoice "showHostRevealFastestFingerResults"
                  REVEAL_FASTEST_FINGER_RESULTS (Some 2000))
   else
     setOneChoiceHostStepDialog
       (OneChoice "showHostRevealFastestFingerAnswer"
                  REVEAL_FASTEST_FINGER_ANSWER (Some 2000)));;
  _updateGame.

(** [playerMap.doAll] runs its callback on every player; with no player
    the callback, and its read of the question, does not run. *)
Definition showHostRevealFastestFingerResults
    (socket : option nat) (data : payload) : M unit :=
  enter "showHostRevealFastestFingerResults";;
  g ← get_this;
  (if decide (playerMap g = ∅) then mret ()
   else
     q ← the_fastestFingerQuestion;
     modify_this (λ g,
       with_playerMap
         ((λ player,
             with_fastestFingerScore
               (Some (ffq_getAnswerScore q (fastestFingerChoices player)))
               player) <$> playerMap g) g));;
  setOneChoiceHostStepDialog
    (OneChoice "showHostAcceptHotSeatPlayer"
               ACCEPT_HOT_SEAT_PLAYER (Some 3000));;
  _updateGame.

Definition showHostAcceptHotSeatPlayer
    (socket : option nat) (data : payload) : M unit :=
  enter "showHostAcceptHotSeatPlayer";;
  '(_, player) ← the_hotSeatPlayer;
  modify_serverState
    (setCelebrationBanner
       (Some (Banner FASTEST_FINGER_WINNER (Some (username player)))));;
  setOneChoiceHostStepDialog
    (OneChoice "showHostCueHotSeatRules" SHOW_HOT_SEAT_RULES (Some 10000));;
  _updateGame.

Definition showHostCueHotSeatRules
    (socket : option nat) (data : payload) : M unit :=
  enter "showHostCueHotSeatRules";;
  ss ← the_serverState;
  g ← get_this;
  let '(ss', pm') := resetFastestFinger ss (playerMap g) in
  modify_this (λ g, with_serverState (Some ss') (with_playerMap pm' g));;
  modify_serverState (setCelebrationBanner None);;
  setOneChoiceHostStepDialog
    (OneChoice "showHostCueHotSeatQuestion"
               CUE_HOT_SEAT_QUESTION (Some 5000));;
  _updateGame.

(** [hotSeatQuestionIndex++] adds one, exactly so while the index is a
    safe integer. *)
Definition showHostCueHotSeatQuestion
    (socket : option nat) (data : payload) : M unit :=
  enter "showHostCueHotSeatQuestion";;
  modify_serverState (setCelebrationBanner None);;
  modify_serverState
    (λ ss, with_hotSeatQuestionIndex (hotSeatQuestionIndex ss + 1) ss);;
  setOneChoiceHostStepDialog
    (OneChoice "showHostShowHotSeatQuestionText"
               SHOW_HOT_SEAT_QUESTION (Some 7000));;
  _updateGame.

Definition showHostShowHotSeatQuestionText
    (socket : option nat) (data : payload) : M unit :=
  enter "showHostShowHotSeatQuestionText";;
  ss ← the_serverState;
  g ← get_this;
  match hss_getNewQuestion (hotSeatSession g) (hotSeatQuestionIndex ss) with
  | None => throw SessionError
  | Some (q, session') =>
      modify_this (with_hotSeatSession session');;
      modify_serverState (with_hotSeatQuestion (Some q));;
      setOneChoiceHostStepDialog
        (OneChoice "showHostRevealHotSeatChoice"
                   REVEAL_HOT_SEAT_CHOICE (Some 4000));;
      _updateGame
  end.

Definition showHostRevealHotSeatChoice
    (socket : option nat) (data : payload) : M unit :=
  enter "showHostRevealHotSeatChoice";;
  '(k, _) ← the_hotSeatPlayer;
  modify_player k clearAllAnswers;;
  q ← the_hotSeatQuestion;
  let q' := HotSeatQuestion.Question_revealChoice q in
  modify_serverState (with_hotSeatQuestion (Some q'));;
  (if negb (HotSeatQuestion.Question_allChoicesRevealed q') then
     setOneChoiceHostStepDialog
       (OneChoice "showHostRevealHotSeatChoice"
                  REVEAL_HOT_SEAT_CHOICE (Some 1500))
   else
     e ← get_env;
     modify_serverState
       (with_hotSeatQuestion
          (Some (HotSeatQuestion.Question_markStartTime (now e) q')));;
     modify_serverState (setShowHostStepDialog None);;
     modify_serverState (setHotSeatStepDialog None));;
  _updateGame.

Definition hotSeatChoose
    (socket : option nat) (data : payload) : M unit :=
  enter "hotSeatChoose";;
  '(k, _) ← the_hotSeatPlayer;
  c ← choice_of data;
  modify_player k (chooseHotSeat c);;
  let dialog :=
    _getYesNoDialog "hotSeatFinalAnswer" "showHostRevealHotSeatChoice"
                    (Some HOT_SEAT_FINAL_ANSWER) in
  ss ← the_serverState;
  (if playerShowHostPresent ss
   then modify_serverState (setShowHostStepDialog (Some dialog))
   else modify_serverState (setHotSeatStepDialog (Some dialog)));;
  _updateGame.

Definition contestantChoose
    (socket : option nat) (data : payload) : M unit :=
  c ← choice_of data;
  logInfo ("contestantChoose: " +:+ choice_to_string c);;
  '(k, _) ← the_player socket;
  modify_player k (chooseHotSeat c);;
  updateGameForSocket k.

Definition hotSeatFinalAnswer
    (socket : option nat) (data : payload) : M unit :=
  enter "hotSeatFinalAnswer";;
  q ← the_hotSeatQuestion;
  let q' := HotSeatQuestion.revealCorrectChoiceForShowHost q in
  modify_serverState (with_hotSeatQuestion (Some q'));;
  '(_, player) ← the_hotSeatPlayer;
  ss ← the_serverState;
  (if HotSeatQuestion.answerIsCorrect q' (hotSeatChoice player) then
     setOneChoiceHostStepDialog
       (OneChoice "showHostRevealHotSeatQuestionVictory" HOT_SEAT_VICTORY
          (js_get FINAL_ANSWER_WAIT_TIMES (hotSeatQuestionIndex ss)))
   else
     setOneChoiceHostStepDialog
       (OneChoice "showHostRevealHotSeatQuestionLoss" HOT_SEAT_LOSS
          (js_get FINAL_ANSWER_WAIT_TIMES (hotSeatQuestionIndex ss))));;
  _updateGame.

Definition showHostRevealHotSeatQuestionVictory
    (socket : option nat) (data : payload) : M unit :=
  enter "showHostRevealHotSeatQuestionVictory";;
  modify_serverState (setShowHostStepDialog None);;
  q ← the_hotSeatQuestion;
  modify_serverState
    (with_hotSeatQuestion
       (Some (HotSeatQuestion.revealCorrectChoiceForAll q)));;
  _updateGame;;
  h ← setTimeout CallVictoryContinuation 1000;
  modify_this (with_currentForcedTimer (Some h)).

Definition showHostRevealHotSeatQuestionVictory_Continuation : M unit :=
  ss ← the_serverState;
  modify_serverState
    (setCelebrationBanner
       (Some (Banner "" (js_get MONEY_STRINGS (hotSeatQuestionIndex ss)))));;
  ss ← the_serverState;
  g ← get_this;
  let '(ss', pm') := resetHotSeatQuestion ss (playerMap g) in
  modify_this (λ g, with_serverState (Some ss') (with_playerMap pm' g));;
  ss ← the_serverState;
  setOneChoiceHostStepDialog
    (OneChoice "showHostCueHotSeatQuestion" CUE_HOT_SEAT_QUESTION
       (js_get CORRECT_WAIT_TIMES (hotSeatQuestionIndex ss)));;
  _updateGame.

(** *** Dispatch by name

    [this[socketEvent]] for the name of a socket event: the listener
    methods of the class, by name.  A socket event that names none of
    them names no member of the object at all, and calling it is a
    TypeError. *)
Definition listeners : list (string * (option nat → payload → M unit)) := [
  ("showHostShowFastestFingerRules", showHostShowFastestFingerRules);
  ("showHostCueFastestFingerQuestion", showHostCueFastestFingerQuestion);
  ("showHostShowFastestFingerQuestionText",
    showHostShowFastestFingerQuestionText);
  ("showHostCueFastestFingerThreeStrikes",
    showHostCueFastestFingerThreeStrikes);
  ("showHostRevealFastestFingerQuestionChoices",
    showHostRevealFastestFingerQuestionChoices);
  ("contestantFastestFingerChoose", contestantFastestFingerChoose);
  ("fastestFingerTimeUp", fastestFingerTimeUp);
  ("showHostCueFastestFingerAnswerRevealAudio",
    showHostCueFastestFingerAnswerRevealAudio);
  ("showHostRevealFastestFingerAnswer", showHostRevealFastestFingerAnswer);
  ("showHostRevealFastestFingerResults",
    showHostRevealFastestFingerResults);
  ("showHostAcceptHotSeatPlayer", showHostAcceptHotSeatPlayer);
  ("showHostCueHotSeatRules", showHostCueHotSeatRules);
  ("showHostCueHotSeatQuestion", showHostCueHotSeatQuestion);
  ("showHostShowHotSeatQuestionText", showHostShowHotSeatQuestionText);
  ("showHostRevealHotSeatChoice", showHostRevealHotSeatChoice);
  ("hotSeatChoose", hotSeatChoose);
  ("contestantChoose", contestantChoose);
  ("hotSeatFinalAnswer", hotSeatFinalAnswer);
  ("showHostRevealHotSeatQuestionVictory",
    showHostRevealHotSeatQuestionVictory);
  ("showHostRevealHotSeatQuestionVictory_Continuation",
    λ _ _, showHostRevealHotSeatQuestionVictory_Continuation)
]%string.

Definition listener_names : list string := fst <$> listeners.

Fixpoint lookup_listener
    (table : list (string * (option nat → payload → M unit)))
    (name : string) : option (option nat → payload → M unit) :=
  match table with
  | [] => None
  | (n, f) :: table' =>
      if String.eqb n name then Some f else lookup_listener table' name
  end.

(** [this[socketEvent](socket, data)] *)
Definition call_by_name
    (socketEvent : string) (socket : option nat) (data : payload)
    : M unit :=
  match lookup_listener listeners socketEvent with
  | Some f => f socket data
  | None => throw (TypeError "this[socketEvent] is not a function")
  end.

(** The closure of an automatic StepDialog, when its timeout runs it:
    [this[data.nextSocketEvent]({}, data.nextSocketEvent)]. *)
Definition run_closure (c : StepDialog.closure) : M unit :=
  match c with
  | StepDialog.InvokeListener ev => call_by_name ev None (Data None)
  end.

(** [activateListenersForSocket(socket)]: for every socket event, the
    function given to [socket.on]. *)
Definition activateListenersForSocket (socket : nat)
    : list (string * (payload → M unit)) :=
  (λ socketEvent,
     (socketEvent, λ data, call_by_name socketEvent (Some socket) data))
  <$> SOCKET_EVENTS.

(** *** The event loop

    The game server is driven by messages that arrive on the sockets of
    players and by forced timers that expire.  A message runs the
    function registered for its name on that socket, if any.  A timer
    can fire only while it is armed; firing disarms it. *)
Inductive event :=
| Message (socket : nat) (socketEvent : string) (data : payload)
| TimerFires (handle : nat).

Definition run_timerCallback (callback : timerCallback) : M unit :=
  match callback with
  | CallRevealFastestFingerQuestionChoices =>
      showHostRevealFastestFingerQuestionChoices None NoData
  | CallFastestFingerTimeUp => fastestFingerTimeUp None NoData
  | CallVictoryContinuation =>
      showHostRevealHotSeatQuestionVictory_Continuation
  end.

Definition react (ev : event) : M unit :=
  match ev with
  | Message socket socketEvent data =>
      match
        list_find (λ l, l.1 = socketEvent)
                  (activateListenersForSocket socket)
      with
      | Some (_, (_, f)) => f data
      | None => mret ()
      end
  | TimerFires h =>
      e ← get_env;
      match timers e !! h with
      | Some (callback, _) =>
          modify_env (λ e, with_timers (delete h (timers e)) e);;
          run_timerCallback callback
      | None => mret ()
      end
  end.

(** The events of a list, one after the other; a listener that throws
    ends its own event only. *)
Fixpoint run (evs : list event) (w : world) : world :=
  match evs with
  | [] => w
  | ev :: evs' => run evs' (react ev w).2
  end.

(** One [contestantFastestFingerChoose] message for every pair of a
    socket and a choice. *)
Definition submissions_events (submissions : list (nat * option Z))
    : list event :=
  (λ s, Message s.1 "contestantFastestFingerChoose" (Data s.2))
  <$> submissions.

(** The submissions come from players, and the players are all done
    with fastest finger after the last submission and not before. *)
Fixpoint completes_at_last (ss : ServerState)
    (players : gmap nat Player) (submissions : list (nat * option Z))
    : bool :=
  match submissions with
  | [] => false
  | s :: rest =>
      let players' := alter (chooseFastestFinger s.2) s.1 players in
      bool_decide (is_Some (players !! s.1))
      && match rest with
         | [] => allPlayersDoneWithFastestFinger ss players'
         | _ :: _ =>
             negb (allPlayersDoneWithFastestFinger ss players')
             && completes_at_last ss players' rest
         end
  end.

(** *** What the listeners install

    The values the listeners of the claims compute, named so that the
    properties can state them. *)

(** The dialog [_getOneChoiceHostStepDialog] builds. *)
Definition oneChoiceDialog (ss : ServerState) (data : oneChoiceData)
    : StepDialog.t :=
  if playerShowHostPresent ss then
    StepDialog.new
      [StepDialog.Action (nextSocketEvent data) (hostButtonMessage data)]
      None None None
  else
    StepDialog.new []
      (Some (StepDialog.InvokeListener (nextSocketEvent data)))
      (aiTimeout data) None.

(** The dialog [fastestFingerTimeUp] installs. *)
Definition timeUpDialog (ss : ServerState) : StepDialog.t :=
  oneChoiceDialog ss
    (OneChoice "showHostCueFastestFingerAnswerRevealAudio"
       CUE_FASTEST_FINGER_ANSWER_REVEAL_AUDIO (Some 2500)).

(** The server state once [showHostRevealFastestFingerQuestionChoices] has
    revealed the choices and started the clock. *)
Definition clockStarted (ss : ServerState) (q : FFQ) (time : Z)
    : ServerState :=
  with_fastestFingerQuestion
    (Some (ffq_markStartTime time (ffq_revealAllChoices q))) ss.

(** The line [contestantFastestFingerChoose] logs. *)
Definition chooseLine (c : option Z) : string :=
  "contestantFastestFingerChoose: " +:+ choice_to_string c.

(** The dialog [hotSeatChoose] installs. *)
Definition finalAnswerDialog : StepDialog.t :=
  _getYesNoDialog "hotSeatFinalAnswer" "showHostRevealHotSeatChoice"
                  (Some HOT_SEAT_FINAL_ANSWER).

(** The argument [hotSeatFinalAnswer] gives to
    [_getOneChoiceHostStepDialog]. *)
Definition finalAnswerOutcome (ss : ServerState) (q : HSQ) (p : Player)
    : oneChoiceData :=
  if HotSeatQuestion.answerIsCorrect q (hotSeatChoice p) then
    OneChoice "showHostRevealHotSeatQuestionVictory" HOT_SEAT_VICTORY
      (js_get FINAL_ANSWER_WAIT_TIMES (hotSeatQuestionIndex ss))
  else
    OneChoice "showHostRevealHotSeatQuestionLoss" HOT_SEAT_LOSS
      (js_get FINAL_ANSWER_WAIT_TIMES (hotSeatQuestionIndex ss)).

(** How many times a line was given to the logger. *)
Definition times_logged (line : string) (e : env) : nat :=
  length (filter (λ l, l = line) (logged e)).

End Game.

Arguments ServerState : clear implicits.
Arguments t : clear implicits.
Arguments emission : clear implicits.
Arguments env : clear implicits.
Arguments world : clear implicits.
Arguments M : clear implicits.
Arguments Collaborators : clear implicits.

End GameServer.

(** ** GameServer.js: starting and ending a game, and the listeners of a
    socket *)

Module GameServerLifecycle.

Import GameServer.

(** The argument of [startGame] and of [gameOptionsAreValid]. *)
Record gameOptions := GameOptions {
  showHostUsername : option string
}.

Section Lifecycle.

Context {T E FFQ FFSession HSSession : Type} `{EqDecision T}.
Context {collaborators : Collaborators T E FFQ FFSession HSSession}.

(** The further methods of the collaborators that the life cycle of a game
    uses; as for [Collaborators], the properties hold whatever they do. *)
Class LifecycleCollaborators := {
  (** [new ServerState(playerMap)] *)
  newServerState : gmap nat Player → ServerState T E FFQ;
  (** [ServerState.js] *)
  setShowHostByUsername :
    option string → ServerState T E FFQ → gmap nat Player
    → ServerState T E FFQ * gmap nat Player;
  (** [PlayerMap.js] *)
  removeInactivePlayers : gmap nat Player → gmap nat Player;
  getActivePlayerCount : gmap nat Player → Z;
  (** [Player.js] *)
  reset : Player → Player
}.

Context {lifecycle : LifecycleCollaborators}.

(** [endGame()].  [this.serverState.clearTimers()] works on the timers the
    server state keeps for itself, in a state that the next statement
    drops; the forced timer is the one [clearTimeout] clears. *)
Definition endGame : M T E FFQ FFSession HSSession unit :=
  g ← get_this;
  (if is_defined (serverState g)
   then clearTimeout (currentForcedTimer g)
   else mret ());;
  modify_this (with_serverState None);;
  modify_this (λ g, with_playerMap (removeInactivePlayers (playerMap g)) g);;
  modify_this (λ g, with_playerMap (reset <$> playerMap g) g).

Definition gameOptionsAreValid (options : gameOptions)
    : M T E FFQ FFSession HSSession bool :=
  g ← get_this;
  mret (negb (is_defined (showHostUsername options))
        || bool_decide (1 < getActivePlayerCount (playerMap g))).

(** [startGame(gameOptions)]; the first phase is entered with no argument
    at all. *)
Definition startGame (options : gameOptions)
    : M T E FFQ FFSession HSSession unit :=
  modify_this (λ g, with_serverState (Some (newServerState (playerMap g))) g);;
  ss ← the_serverState;
  g ← get_this;
  let '(ss', pm') :=
    setShowHostByUsername (showHostUsername options) ss (playerMap g) in
  modify_this (λ g, with_serverState (Some ss') (with_playerMap pm' g));;
  ss ← the_serverState;
  g ← get_this;
  let '(ss', pm') := startNewRound ss (playerMap g) in
  modify_this (λ g, with_serverState (Some ss') (with_playerMap pm' g));;
  showHostShowFastestFingerRules None NoData.

End Lifecycle.

Arguments LifecycleCollaborators : clear implicits.

(** *** The listeners of one socket

    The socket keeps its listeners in the order of registration:
    [socket.on(name, f)] adds one at the end and
    [socket.removeAllListeners(name)] removes every listener of that name,
    whoever registered it.  [L] is the type of a listener. *)
Section Registry.

Context {L : Type}.

Definition socket_on (name : string) (f : L) (registry : list (string * L))
    : list (string * L) :=
  registry ++ [(name, f)].

Definition removeAllListeners (name : string) (registry : list (string * L))
    : list (string * L) :=
  filter (λ l, l.1 ≠ name) registry.

(** The [forEach] of [activateListenersForSocket], given the listeners it
    builds. *)
Definition activate (listeners : list (string * L))
    (registry : list (string * L)) : list (string * L) :=
  fold_left (λ r l, socket_on l.1 l.2 r) listeners registry.

(** [deactivateListenersForSocket(socket)] *)
Definition deactivateListenersForSocket (registry : list (string * L))
    : list (string * L) :=
  fold_left (λ r socketEvent, removeAllListeners socketEvent r)
            SOCKET_EVENTS registry.

End Registry.

End GameServerLifecycle.

(** ** What holds of a method: postconditions and invariants *)

Module GameServerLogic.

Import GameServer.

Section Logic.

Context {T E FFQ FFSession HSSession : Type}.

Abbreviation world := (GameServer.world T E FFQ FFSession HSSession).

(** [wp m Q R w]: run from [w], the method [m] returns a value and a world
    that satisfy [Q], or throws an error in a world that satisfy [R]. *)
Definition wp {A : Type} (m : M T E FFQ FFSession HSSession A)
    (Q : A → world → Prop) (R : error → world → Prop) (w : world)
    : Prop :=
  match m w with
  | (Ok a, w') => Q a w'
  | (Throw err, w') => R err w'
  end.

(** Every armed timer has a handle below the next handle [setTimeout] will
    hand out. *)
Definition fresh (e : env T E FFQ) : Prop :=
  ∀ h x, timers e !! h = Some x → (h < nextTimer e)%nat.

(** From [w] to [w'] the armed timers stay below the next handle, no handle
    is handed out twice, and a timer armed on the way has its handle in
    [currentForcedTimer]. *)
Definition timers_tracked (w w' : world) : Prop :=
  fresh w'.2 ∧
  (nextTimer w.2 ≤ nextTimer w'.2)%nat ∧
  ∀ h x,
    timers w'.2 !! h = Some x →
    timers w.2 !! h = None →
    currentForcedTimer w'.1 = Some h.

(** The events a StepDialog can lead to: those of its actions and the one
    of its timeout function. *)
Definition targets (d : StepDialog.t) : list string :=
  (StepDialog.socketEvent <$> StepDialog.actions d)
  ++ match StepDialog.timeoutFunc d with
     | Some (StepDialog.InvokeListener ev) => [ev]
     | None => []
     end.

(** A StepDialog either offers actions to a human and has no timeout, or
    offers none and has a timeout function; and it leads to socket events
    only. *)
Definition dialog_ok (d : StepDialog.t) : bool :=
  (match StepDialog.actions d with
   | _ :: _ =>
       negb (is_defined (StepDialog.timeoutFunc d))
       && negb (is_defined (StepDialog.timeoutMs d))
   | [] => is_defined (StepDialog.timeoutFunc d)
   end)
  && forallb (λ ev, bool_decide (ev ∈ SOCKET_EVENTS)) (targets d).

(** The show host's StepDialog, when there is one, is such a dialog. *)
Definition showHostDialog_ok (w : world) : Prop :=
  ∀ ss d,
    serverState w.1 = Some ss →
    showHostStepDialog ss = Some d →
    dialog_ok d = true.

(** The server state and the socket event an emission carries. *)
Definition emission_state (m : emission T E FFQ) : ServerState T E FFQ :=
  match m with
  | UpdateGameForAll ss _ => ss
  | UpdateGameFor _ ss _ => ss
  end.

Definition emission_event (m : emission T E FFQ) : option string :=
  match m with
  | UpdateGameForAll _ ev => ev
  | UpdateGameFor _ _ ev => ev
  end.

(** The latest emission carries the server state and the socket event the
    game server has now. *)
Definition up_to_date (w : world) : Prop :=
  ∃ m rest,
    emitted w.2 = m :: rest ∧
    serverState w.1 = Some (emission_state m) ∧
    currentSocketEvent w.1 = emission_event m.

End Logic.

(** The listeners that stand for a phase of the game: all but the two
    through which contestants answer and the continuation of a victory. *)
Definition phase_names : list string := [
  "showHostShowFastestFingerRules";
  "showHostCueFastestFingerQuestion";
  "showHostShowFastestFingerQuestionText";
  "showHostCueFastestFingerThreeStrikes";
  "showHostRevealFastestFingerQuestionChoices";
  "fastestFingerTimeUp";
  "showHostCueFastestFingerAnswerRevealAudio";
  "showHostRevealFastestFingerAnswer";
  "showHostRevealFastestFingerResults";
  "showHostAcceptHotSeatPlayer";
  "showHostCueHotSeatRules";
  "showHostCueHotSeatQuestion";
  "showHostShowHotSeatQuestionText";
  "showHostRevealHotSeatChoice";
  "hotSeatChoose";
  "hotSeatFinalAnswer";
  "showHostRevealHotSeatQuestionVictory"
]%string.

(** The listeners that arm a forced timer, with the callback and the delay
    they give to [setTimeout]. *)
Definition arming_listeners : list (string * (timerCallback * Z)) := [
  ("showHostCueFastestFingerThreeStrikes",
    (CallRevealFastestFingerQuestionChoices, 2500));
  ("showHostRevealFastestFingerQuestionChoices",
    (CallFastestFingerTimeUp, 10000));
  ("showHostRevealHotSeatQuestionVictory", (CallVictoryContinuation, 1000))
]%string.

(** The listeners through which a contestant sends a choice. *)
Definition contestant_names : list string :=
  ["contestantFastestFingerChoose"; "contestantChoose"]%string.

End GameServerLogic.

(** ** HotSeatActionButton.js *)

Module HotSeatActionButton.

(** The [Path2D] of the button: the ellipse [draw] builds. *)
Record path := Ellipse {
  centerX : Z;
  centerY : Z;
  radiusX : Z;
  radiusY : Z
}.

(** [Colors.DEFAULT_TEXT_COLOR] and [Colors.BUBBLE_FILL_DEFAULT] *)
Definition DEFAULT_TEXT_COLOR : string := "#ffffff".
Definition BUBBLE_FILL_DEFAULT : string := "#000000".

Section Button.

(** [Pixels] is what the canvas shows. *)
Context {Pixels : Type}.

(** The fields of the 2D context that [draw] reads or writes. *)
Record context := mkContext {
  fillStyle : string;
  strokeStyle : string;
  lineWidth : Z;
  pixels : Pixels
}.

(** The fields of a button.  [x], [y] and [context] are inherited from
    [CanvasElement]. *)
Record t := mk {
  x : Z;
  y : Z;
  context_ : context;
  button : option path;
  icon : option path;
  text : option string;
  outlineColor : string;
  socket : option nat;
  socketEvent : option string
}.

(** The canvas and the element classes around the button, whose code is
    outside [HotSeatActionButton.js]: the properties hold whatever they
    do. *)
Class Canvas := {
  (** [context.isPointInPath(path, x, y)]; [None] when it throws *)
  isPointInPath : option path → Z → Z → option bool;
  (** [context.fill(path)] and [context.stroke(path)], on the pixels *)
  fill : path → context → Pixels;
  stroke : path → context → Pixels;
  (** what building and drawing the text element does to the context *)
  drawText : Z → Z → string → Z → Z → context → context
}.

Context {canvas : Canvas}.

(** [constructor(canvas)], on the fields [super(canvas)] has set.  The
    field [onClick] it also sets is the function that calls [_onClick]. *)
Definition constructor (super : t) : t :=
  mk (x super) (y super) (context_ super) None None None DEFAULT_TEXT_COLOR
     None None.

(** What a call leaves behind: the lines given to [console.log], the
    messages emitted (the socket, the event), and whether it threw. *)
Record outcome := Outcome {
  console : list string;
  sent : list (nat * option string);
  threw : bool
}.

(** ['this.button: ' + this.button] *)
Definition button_line (b : t) : string :=
  "this.button: " +:+
  (if is_defined (button b) then "[object Path2D]" else "undefined").

(** [isMouseHovering(x, y)]: the line it logs and what it returns, [None]
    when [isPointInPath] throws.  [&&] evaluates its right operand only
    when the left one is true. *)
Definition isMouseHovering (b : t) (px py : Z) : string * option bool :=
  (button_line b,
   if is_defined (socketEvent b)
   then isPointInPath (button b) px py
   else Some false).

Definition _onClick (b : t) (px py : Z) : outcome :=
  match socket b with
  | Some s =>
      let '(line, hovering) := isMouseHovering b px py in
      match hovering with
      | Some true => Outcome [line] [(s, socketEvent b)] false
      | Some false => Outcome [line] [] false
      | None => Outcome [line] [] true
      end
  | None => Outcome [] [] false
  end.

Definition with_context (c : context) (b : t) : t :=
  mk (x b) (y b) c (button b) (icon b) (text b) (outlineColor b) (socket b)
     (socketEvent b).

Definition with_button (p : option path) (b : t) : t :=
  mk (x b) (y b) (context_ b) p (icon b) (text b) (outlineColor b) (socket b)
     (socketEvent b).

(** [draw()].  [buttonWidth * 0.6] is 36. *)
Definition draw (b : t) : t :=
  let old := context_ b in
  let buttonWidth := 60 in
  let buttonHeight := 36 in
  let c := mkContext BUBBLE_FILL_DEFAULT (outlineColor b) 6 (pixels old) in
  let p := Ellipse (x b) (y b) buttonWidth buttonHeight in
  let b := with_button (Some p) b in
  let c := mkContext (fillStyle c) (strokeStyle c) (lineWidth c) (fill p c) in
  let c :=
    mkContext (fillStyle c) (strokeStyle c) (lineWidth c) (stroke p c) in
  let c :=
    match text b with
    | Some t => drawText (x b) (y b) t buttonWidth buttonHeight c
    | None => c
    end in
  with_context
    (mkContext (fillStyle old) (strokeStyle old) (lineWidth old) (pixels c))
    b.

End Button.

Arguments context : clear implicits.
Arguments t : clear implicits.
Arguments Canvas : clear implicits.

End HotSeatActionButton.

(** ** A concrete game

    The properties below hold for every implementation of the
    collaborators.  To run the game server on concrete inputs, this module
    gives one implementation of them, with numbers as choices. *)

Module Model.

Import GameServer.

(** Modelled from the spec: [FastestFingerQuestion.js] is not among the
    sources.  A fastest finger question has the four choices in their
    true order, shows all its choices at once, records when the answer
    clock started, and reveals its answers one at a time until all four
    are revealed; an answer scores one point for every choice at its true
    position and four more when the whole order is right. *)
Record FFQ := mkFFQ {
  ff_orderedChoices : list Z;
  ff_choicesRevealed : bool;
  ff_startTime : option Z;
  ff_revealedAnswers : nat
}.

Fixpoint matching_positions (answer truth : list Z) : Z :=
  match answer, truth with
  | a :: answer', b :: truth' =>
      (if decide (a = b) then 1 else 0) + matching_positions answer' truth'
  | _, _ => 0
  end.

Definition getAnswerScore (q : FFQ) (answer : list Z) : Z :=
  matching_positions answer (ff_orderedChoices q)
  + (if decide (answer = ff_orderedChoices q) then 4 else 0).

Abbreviation HSQ := (HotSeatQuestion.t Z Z).

(** Modelled from the spec: [Question.js] is not among the sources.  A
    question reveals its choices one presented slot at a time, an entry
    of [revealedChoices] being defined once its slot is revealed, and its
    compressed form carries the revealed choices and the made choices. *)
Definition revealChoice (q : HSQ) : HSQ :=
  let n := length (HotSeatQuestion.revealedChoices q) in
  match HotSeatQuestion.shuffledChoices q !! n with
  | Some c =>
      HotSeatQuestion.mk (HotSeatQuestion.orderedChoices q)
        (HotSeatQuestion.shuffledChoices q)
        (HotSeatQuestion.revealedChoices q ++ [Some c])
        (HotSeatQuestion.startTime q)
        (HotSeatQuestion.correctChoiceRevealedForShowHost q)
        (HotSeatQuestion.correctChoiceRevealedForAll q)
        (HotSeatQuestion.questionIndex q)
  | None => q
  end.

Definition allChoicesRevealed (q : HSQ) : bool :=
  bool_decide (length (HotSeatQuestion.shuffledChoices q)
               ≤ length (HotSeatQuestion.revealedChoices q))%nat.

Definition markStartTime (time : Z) (q : HSQ) : HSQ :=
  HotSeatQuestion.mk (HotSeatQuestion.orderedChoices q)
    (HotSeatQuestion.shuffledChoices q)
    (HotSeatQuestion.revealedChoices q)
    (Some time)
    (HotSeatQuestion.correctChoiceRevealedForShowHost q)
    (HotSeatQuestion.correctChoiceRevealedForAll q)
    (HotSeatQuestion.questionIndex q).

Definition Question_toCompressed_model
    (q : HSQ) (madeChoices : list (option Z)) : gmap string json :=
  {[ "revealedChoices" :=
       JArr (json_of_num <$> HotSeatQuestion.revealedChoices q);
     "madeChoices" := JArr (json_of_num <$> madeChoices) ]}.

#[global] Instance question_base : HotSeatQuestion.QuestionBase Z Z := {|
  HotSeatQuestion.Question_toCompressed := Question_toCompressed_model;
  HotSeatQuestion.Question_revealChoice := revealChoice;
  HotSeatQuestion.Question_allChoicesRevealed := allChoicesRevealed;
  HotSeatQuestion.Question_markStartTime := markStartTime
|}.

(** Modelled from the spec: the sessions are not among the sources.  A
    session hands out the questions of its bank one by one, never one
    twice, and fails when the bank is exhausted. *)
Definition ffs_getNewQuestion (bank : list FFQ) : option (FFQ * list FFQ) :=
  match bank with
  | q :: bank' => Some (q, bank')
  | [] => None
  end.

Definition hss_getNewQuestion (bank : list HSQ) (index : Z)
    : option (HSQ * list HSQ) :=
  match bank with
  | q :: bank' =>
      Some (HotSeatQuestion.mk (HotSeatQuestion.orderedChoices q)
              (HotSeatQuestion.shuffledChoices q) [] None false false index,
            bank')
  | [] => None
  end.

(** Modelled from the spec: [Player.js] is not among the sources.  A
    contestant's fastest finger answer is an ordering of the four
    choices, built one choice at a time and locked once complete; a hot
    seat choice is the single slot chosen. *)
Definition chooseFastestFinger (c : option Z) (p : Player) : Player :=
  match c with
  | Some n =>
      if decide (length (fastestFingerChoices p) < 4)%nat
      then mkPlayer (username p) (fastestFingerChoices p ++ [n])
                    (fastestFingerScore p) (hotSeatChoice p)
      else p
  | None => p
  end.

Definition chooseHotSeat (c : option Z) (p : Player) : Player :=
  mkPlayer (username p) (fastestFingerChoices p) (fastestFingerScore p) c.

Definition clearAllAnswers (p : Player) : Player :=
  mkPlayer (username p) [] (fastestFingerScore p) None.

Abbreviation SS := (ServerState Z Z FFQ).

(** Modelled from the spec: [ServerState.js] is not among the sources.
    Everyone but the show host is a contestant, and the contestants are
    done with fastest finger once each has ordered all four choices; a
    new round and the two resets discard the questions they name. *)
Definition allPlayersDoneWithFastestFinger
    (ss : SS) (players : gmap nat Player) : bool :=
  bool_decide
    (map_Forall
       (λ k p,
          showHost ss = Some k ∨ length (fastestFingerChoices p) = 4%nat)
       players).

Definition resetFastestFinger (ss : SS) (players : gmap nat Player)
    : SS * gmap nat Player :=
  (with_fastestFingerQuestion None ss, players).

Definition resetHotSeatQuestion (ss : SS) (players : gmap nat Player)
    : SS * gmap nat Player :=
  (with_hotSeatQuestion None ss, players).

Definition startNewRound (ss : SS) (players : gmap nat Player)
    : SS * gmap nat Player :=
  (mkServerState (showHost ss) (hotSeatPlayer ss) None None None None (-1)
     None,
   clearAllAnswers <$> players).

#[global] Instance collaborators
    : Collaborators Z Z FFQ (list FFQ) (list HSQ) := {|
  ffq_revealAllChoices q :=
    mkFFQ (ff_orderedChoices q) true (ff_startTime q) (ff_revealedAnswers q);
  ffq_markStartTime time q :=
    mkFFQ (ff_orderedChoices q) (ff_choicesRevealed q) (Some time)
          (ff_revealedAnswers q);
  ffq_revealAnswer q :=
    mkFFQ (ff_orderedChoices q) (ff_choicesRevealed q) (ff_startTime q)
          (S (ff_revealedAnswers q));
  ffq_revealedAllAnswers q := bool_decide (4 ≤ ff_revealedAnswers q)%nat;
  ffq_getAnswerScore := getAnswerScore;
  GameServer.question_base := question_base;
  MONEY_STRINGS := (λ n, "$" +:+ pretty n) <$> HotSeatQuestion.PAYOUTS;
  GameServer.ffs_getNewQuestion := ffs_getNewQuestion;
  GameServer.hss_getNewQuestion := hss_getNewQuestion;
  GameServer.chooseFastestFinger := chooseFastestFinger;
  GameServer.chooseHotSeat := chooseHotSeat;
  GameServer.clearAllAnswers := clearAllAnswers;
  GameServer.startNewRound := startNewRound;
  GameServer.resetFastestFinger := resetFastestFinger;
  GameServer.resetHotSeatQuestion := resetHotSeatQuestion;
  GameServer.allPlayersDoneWithFastestFinger :=
    allPlayersDoneWithFastestFinger;
  YES := "Yes";
  NO := "No";
  HOT_SEAT_FINAL_ANSWER := "Final answer?";
  CUE_FASTEST_FINGER_MUSIC := "Cue fastest finger music";
  SHOW_FASTEST_FINGER_QUESTION := "Show question";
  REVEAL_FASTEST_FINGER_CHOICE := "Reveal choices";
  CUE_FASTEST_FINGER_ANSWER_REVEAL_AUDIO := "Cue answer reveal";
  REVEAL_FASTEST_FINGER_ANSWER := "Reveal answer";
  REVEAL_FASTEST_FINGER_RESULTS := "Reveal results";
  ACCEPT_HOT_SEAT_PLAYER := "Accept hot seat player";
  FASTEST_FINGER_WINNER := "Fastest finger winner";
  SHOW_HOT_SEAT_RULES := "Show hot seat rules";
  CUE_HOT_SEAT_QUESTION := "Cue question";
  SHOW_HOT_SEAT_QUESTION := "Show question";
  REVEAL_HOT_SEAT_CHOICE := "Reveal choice";
  HOT_SEAT_VICTORY := "Reveal victory";
  HOT_SEAT_LOSS := "Reveal loss"
|}.

Abbreviation world := (GameServer.world Z Z FFQ (list FFQ) (list HSQ)).

(** *** Concrete questions *)

(** True order C, A, B, D, presented as A, B, C, D; the question of index
    4, all four choices revealed. *)
Definition question5 : HSQ :=
  HotSeatQuestion.mk [2; 0; 1; 3] [0; 1; 2; 3]
    [Some 0; Some 1; Some 2; Some 3] (Some 0) false false 4.

(** The same choices with a flag per presented slot, every slot revealed,
    and with no slot revealed. *)
Definition question_all_revealed : HotSeatQuestion.t Z bool :=
  HotSeatQuestion.mk [2; 0; 1; 3] [0; 1; 2; 3]
    [Some true; Some true; Some true; Some true] None false false 0.

Definition question_none_revealed : HotSeatQuestion.t Z bool :=
  HotSeatQuestion.mk [2; 0; 1; 3] [0; 1; 2; 3] [] None false false 0.

(** Whether the slots [answerIsCorrect] accepts are exactly the slot
    [getShuffledChoice(0)] returns, and there is one of them. *)
Definition one_correct_slot (q : HSQ) : bool :=
  let slots := [Choices.A; Choices.B; Choices.C; Choices.D] in
  forallb (λ slot,
             bool_decide
               (HotSeatQuestion.answerIsCorrect q (Some slot)
                = bool_decide (HotSeatQuestion.getShuffledChoice q 0
                               = Some slot)))
          slots
  && bool_decide
       (length (filter (λ slot,
                          HotSeatQuestion.answerIsCorrect q (Some slot) = true)
                       slots) = 1%nat).

(** *** Concrete games without a human show host *)

Definition ann : Player := mkPlayer "ann" [] None None.
Definition bob : Player := mkPlayer "bob" [] None None.
Definition ann_done : Player := mkPlayer "ann" [2; 0; 1; 3] None None.
Definition bob_done : Player := mkPlayer "bob" [0; 1; 2; 3] None None.
Definition bob_halfway : Player := mkPlayer "bob" [0; 1] None None.

Definition fastest_finger_question : FFQ := mkFFQ [2; 0; 1; 3] false None 0.
Definition running_question : FFQ := mkFFQ [2; 0; 1; 3] true (Some 0) 0.

(** The three strikes have played: the question text is shown, no
    StepDialog is offered, and the forced timer of handle 0 has fired. *)
Definition three_strikes_state : SS :=
  mkServerState None None None None (Some fastest_finger_question) None
    (-1) None.

Definition three_strikes_world : world :=
  (GameServer.mk {[ 1%nat := ann; 2%nat := bob ]}
     (Some three_strikes_state) [] [question5] (Some 0%nat)
     (Some "showHostCueFastestFingerThreeStrikes"),
   mkEnv ∅ 1 0 ["showHostCueFastestFingerThreeStrikes"] []).

(** Ann and Bob each order the four choices while the clock runs. *)
Definition all_submissions : list (nat * option Z) :=
  [(1%nat, Some 2); (2%nat, Some 0); (1%nat, Some 0); (2%nat, Some 1);
   (1%nat, Some 1); (2%nat, Some 2); (1%nat, Some 3); (2%nat, Some 3)].

(** Fastest finger is over and the game has moved on to the cue of the
    answer reveal: both contestants have locked their four choices, and
    the automatic dialog leads on to the reveal of the first answer. *)
Definition late_state : SS :=
  mkServerState None None
    (Some (StepDialog.new []
             (Some (StepDialog.InvokeListener
                      "showHostRevealFastestFingerAnswer"))
             (Some 2500) None))
    None (Some running_question) None (-1) None.

Definition late_world : world :=
  (GameServer.mk {[ 1%nat := ann_done; 2%nat := bob_done ]}
     (Some late_state) [] [question5] (Some 1%nat)
     (Some "showHostCueFastestFingerAnswerRevealAudio"),
   mkEnv ∅ 2 0 [] []).

(** The clock ran out while Bob had ordered two choices only. *)
Definition time_up_state : SS :=
  mkServerState None None
    (Some (StepDialog.new []
             (Some (StepDialog.InvokeListener
                      "showHostCueFastestFingerAnswerRevealAudio"))
             (Some 2500) None))
    None (Some running_question) None (-1) None.

Definition time_up_world : world :=
  (GameServer.mk {[ 1%nat := ann_done; 2%nat := bob_halfway ]}
     (Some time_up_state) [] [question5] (Some 1%nat)
     (Some "fastestFingerTimeUp"),
   mkEnv ∅ 2 0 [] []).

(** The same moment of a game whose show host, on socket 0, is human. *)
Definition hosted_state : SS :=
  mkServerState (Some 0%nat) None None None (Some fastest_finger_question)
    None (-1) None.

Definition hosted_world : world :=
  (GameServer.mk
     {[ 0%nat := mkPlayer "host" [] None None; 1%nat := ann; 2%nat := bob ]}
     (Some hosted_state) [] [question5] (Some 0%nat)
     (Some "showHostCueFastestFingerThreeStrikes"),
   mkEnv ∅ 1 0 ["showHostCueFastestFingerThreeStrikes"] []).

(** Ann is in the hot seat on the question of index 4, all choices are
    revealed and neither StepDialog is offered. *)
Definition ann_seated : Player := mkPlayer "ann" [2; 0; 1; 3] (Some 8) None.
Definition bob_watching : Player :=
  mkPlayer "bob" [0; 1; 2; 3] (Some 2) None.

Definition hot_seat_state : SS :=
  mkServerState None (Some 1%nat) None None None (Some question5) 4 None.

Definition hot_seat_world : world :=
  (GameServer.mk {[ 1%nat := ann_seated; 2%nat := bob_watching ]}
     (Some hot_seat_state) [] [] (Some 1%nat)
     (Some "showHostRevealHotSeatChoice"),
   mkEnv ∅ 2 0 [] []).

(** Ann has chosen slot B, where the correct choice is presented in slot
    C, and is asked whether that is her final answer. *)
Definition answered_state : SS :=
  mkServerState None (Some 1%nat) None
    (Some (StepDialog.new
             [StepDialog.Action "hotSeatFinalAnswer" "Yes";
              StepDialog.Action "showHostRevealHotSeatChoice" "No"]
             None None (Some "Final answer?")))
    None (Some question5) 4 None.

Definition ann_answered : Player :=
  mkPlayer "ann" [2; 0; 1; 3] (Some 8) (Some 1).

Definition answered_world : world :=
  (GameServer.mk {[ 1%nat := ann_answered; 2%nat := bob_watching ]}
     (Some answered_state) [] [] (Some 1%nat) (Some "hotSeatChoose"),
   mkEnv ∅ 2 0 [] []).

(** *** Before, between and after games *)

(** Modelled from the spec: [ServerState.js], [PlayerMap.js] and
    [Player.js] are not among the sources.  [startGame] creates a fresh
    ServerState and assigns the show host, if any; [endGame] resets all
    players to idle and releases the inactive players.  Every player of
    the map is active here, and the show host is the player that has the
    user name asked for. *)
Definition playerWithUsername (name : option string)
    (players : gmap nat Player) : option nat :=
  fst <$> head (filter (λ kp, Some (username kp.2) = name)
                       (map_to_list players)).

#[global] Instance lifecycle
    : GameServerLifecycle.LifecycleCollaborators Z Z FFQ := {|
  GameServerLifecycle.newServerState _ :=
    mkServerState None None None None None None (-1) None;
  GameServerLifecycle.setShowHostByUsername name ss players :=
    (mkServerState (playerWithUsername name players) (hotSeatPlayer ss)
       (showHostStepDialog ss) (hotSeatStepDialog ss)
       (fastestFingerQuestion ss) (hotSeatQuestion ss)
       (hotSeatQuestionIndex ss) (celebrationBanner ss),
     players);
  GameServerLifecycle.removeInactivePlayers players := players;
  GameServerLifecycle.getActivePlayerCount players :=
    Z.of_nat (size players);
  GameServerLifecycle.reset p := mkPlayer (username p) [] None None
|}.

(** The game server as its constructor leaves it, with two players. *)
Definition new_world : world :=
  (GameServer.mk {[ 1%nat := ann; 2%nat := bob ]} None [] [question5]
     None None,
   mkEnv ∅ 0 0 [] []).

(** The three strikes are cued twice in a row. *)
Definition rearmed_world : world :=
  run [Message 1 "showHostCueFastestFingerThreeStrikes" NoData;
       Message 1 "showHostCueFastestFingerThreeStrikes" NoData]
      three_strikes_world.

End Model.

(** * Properties of a hot seat question *)

Module HotSeatQuestionFacts.

Import HotSeatQuestion.

Section Facts.

Context {T E : Type} `{EqDecision T}.
Implicit Types q : HotSeatQuestion.t T E.

Lemma js_get_nat {A} (arr : list A) (n : nat) :
  js_get arr (Z.of_nat n) = arr !! n.
Proof.
  unfold js_get. rewrite decide_True by lia. by rewrite Nat2Z.id.
Qed.

Lemma js_get_Some {A} (arr : list A) (i : Z) (x : A) :
  js_get arr i = Some x ↔ 0 ≤ i ∧ arr !! Z.to_nat i = Some x.
Proof.
  unfold js_get. destruct (decide (0 ≤ i)) as [Hi|Hi].
  - split; [by intros ? | by intros [_ ?]].
  - split; [done | by intros [? _]].
Qed.

(** The loop returns the first position of the target, counted from
    the index it started at. *)
Lemma getShuffledChoice_loop_found (x : T) (rest : list T) (i : Z) :
  x ∈ rest →
  ∃ k : nat,
    rest !! k = Some x ∧
    getShuffledChoice_loop (Some x) rest i = Some (i + Z.of_nat k).
Proof.
  revert i. induction rest as [|y rest IH]; intros i Hin.
  - by apply elem_of_nil in Hin.
  - cbn [getShuffledChoice_loop]. unfold loose_eq.
    destruct (decide (y = x)) as [->|Hne].
    + exists 0%nat. rewrite bool_decide_eq_true_2 by done.
      split; [done | f_equal; lia].
    + rewrite bool_decide_eq_false_2 by congruence.
      apply elem_of_cons in Hin as [Heq | Hin]; [congruence |].
      destruct (IH (i + 1) Hin) as (k & Hk & ->).
      exists (S k). split; [done | f_equal; lia].
Qed.

Lemma getShuffledChoice_loop_undefined (rest : list T) (i : Z) :
  getShuffledChoice_loop None rest i = None.
Proof.
  revert i. induction rest as [|y rest IH]; intros i; [done |].
  cbn [getShuffledChoice_loop]. unfold loose_eq.
  by rewrite bool_decide_eq_false_2.
Qed.

Lemma getShuffledChoice_loop_absent (x : T) (rest : list T) (i : Z) :
  x ∉ rest → getShuffledChoice_loop (Some x) rest i = None.
Proof.
  revert i. induction rest as [|y rest IH]; intros i Hnin; [done |].
  apply not_elem_of_cons in Hnin as [Hne Hnin].
  cbn [getShuffledChoice_loop]. unfold loose_eq.
  rewrite bool_decide_eq_false_2 by congruence. by apply IH.
Qed.

(** The [forEach] of [getRemainingOrderedChoiceIndexes] is a filter. *)
Lemma fold_remaining_step q (indexes remaining : list Z) :
  fold_left (remaining_step q) indexes remaining
  = remaining ++ filter (λ index, isRevealed q index = true) indexes.
Proof.
  revert remaining. induction indexes as [|i indexes IH]; intros remaining.
  - cbn. by rewrite app_nil_r.
  - cbn [fold_left]. rewrite IH, filter_cons. unfold remaining_step.
    fold (isRevealed q i). destruct (isRevealed q i) eqn:Hdef.
    + rewrite decide_True by done. by rewrite <- app_assoc.
    + rewrite decide_False by done. done.
Qed.

(** C1. When [shuffledChoices] is a permutation of the four distinct
    [orderedChoices], [answerIsCorrect] is true for exactly one
    presented slot, the one [getShuffledChoice(0)] returns, and false
    for every other slot. *)
Theorem answerIsCorrect_exactly_first_ranked q :
  length (orderedChoices q) = 4%nat →
  NoDup (orderedChoices q) →
  shuffledChoices q ≡ₚ orderedChoices q →
  ∃ presented : Z,
    getShuffledChoice q 0 = Some presented ∧
    0 ≤ presented < 4 ∧
    ∀ slot : Z,
      answerIsCorrect q (Some slot) = bool_decide (slot = presented).
Proof.
  intros Hlen Hnodup Hperm.
  destruct (orderedChoices q) as [|first others] eqn:Hord; [done |].
  assert (Hin : first ∈ shuffledChoices q).
  { rewrite Hperm. apply elem_of_cons. by left. }
  assert (Hnd : NoDup (shuffledChoices q)) by by rewrite Hperm.
  assert (Hl : length (shuffledChoices q) = 4%nat) by by rewrite Hperm.
  destruct (getShuffledChoice_loop_found first _ 0 Hin) as (k & Hk & Hloop).
  pose proof (lookup_lt_Some _ _ _ Hk) as Hlt.
  exists (Z.of_nat k). split; [| split; [lia |]].
  - unfold getShuffledChoice. rewrite Hord.
    change (js_get (first :: others) 0) with (Some first).
    by rewrite Hloop.
  - intros slot. unfold answerIsCorrect, loose_eq. rewrite Hord.
    change (js_get (first :: others) 0) with (Some first).
    cbn [js_get_at].
    destruct (decide (slot = Z.of_nat k)) as [->|Hne].
    + rewrite js_get_nat, Hk. by rewrite !bool_decide_eq_true_2.
    + rewrite (bool_decide_eq_false_2 (slot = _)) by done.
      apply bool_decide_eq_false_2. intros Hslot.
      apply js_get_Some in Hslot as [Hpos Hslot].
      pose proof (NoDup_lookup _ _ _ _ Hnd Hslot Hk). lia.
Qed.

(** C8, as the code has it.  [getRemainingOrderedChoiceIndexes] returns,
    in true-rank order, exactly the indexes of the choices whose
    presented slot holds a defined entry of [revealedChoices]: the
    choices revealed so far. *)
Theorem getRemainingOrderedChoiceIndexes_revealed q :
  getRemainingOrderedChoiceIndexes q
  = filter (λ index, isRevealed q index = true) (orderedIndexes q).
Proof.
  unfold getRemainingOrderedChoiceIndexes. by rewrite fold_remaining_step.
Qed.

Context {base : QuestionBase T E}.

(** C4. Provided the compressed form a question inherits has no
    [correctChoice] field of its own, [toCompressed] has a
    [correctChoice] field exactly when [showCorrectChoice] is true, and
    its [choiceLocked] field is [true] when a choice was made and
    [false] when [madeChoice] is [undefined]. *)
Theorem toCompressed_correctChoice_and_choiceLocked
    q (madeChoice : option Z) (showCorrectChoice : bool) :
  Question_toCompressed q [madeChoice] !! "correctChoice" = None →
  (is_Some (toCompressed q madeChoice showCorrectChoice !! "correctChoice")
   ↔ showCorrectChoice = true) ∧
  toCompressed q madeChoice showCorrectChoice !! "choiceLocked"
  = Some (JBool (bool_decide (madeChoice ≠ None))).
Proof.
  intros Hbase. unfold toCompressed. split.
  - rewrite lookup_insert_ne by done.
    destruct showCorrectChoice.
    + rewrite lookup_insert_eq. split; [done | by eexists].
    + rewrite Hbase. split; [by intros [? ?] | done].
  - rewrite lookup_insert_eq. by destruct madeChoice.
Qed.

End Facts.

(** C2. On the question indexes 0 to 14, [getSafeHavenIndex] is
    [floor((failedIndex + 1) / 5) * 5 - 1]: -1 up to index 3, 4 from 4 to
    8, 9 from 9 to 13 and 14 at 14. *)
Theorem getSafeHavenIndex_milestones (failedIndex : Z) :
  0 ≤ failedIndex ≤ 14 →
  getSafeHavenIndex failedIndex = (failedIndex + 1) / 5 * 5 - 1 ∧
  (failedIndex ≤ 3 → getSafeHavenIndex failedIndex = -1) ∧
  (4 ≤ failedIndex ≤ 8 → getSafeHavenIndex failedIndex = 4) ∧
  (9 ≤ failedIndex ≤ 13 → getSafeHavenIndex failedIndex = 9) ∧
  (failedIndex = 14 → getSafeHavenIndex failedIndex = 14).
Proof.
  intros Hrange. unfold getSafeHavenIndex.
  rewrite Z.max_r by lia.
  rewrite Z.rem_mod_nonneg by lia.
  pose proof (Z.div_mod (failedIndex + 1) 5 ltac:(lia)) as Hdm.
  pose proof (Z.mod_pos_bound (failedIndex + 1) 5 ltac:(lia)) as Hb.
  assert (Hq : 0 ≤ (failedIndex + 1) / 5 ≤ 3) by lia.
  repeat split; intros; lia.
Qed.

Lemma getSafeHavenIndex_milestones_witness :
  getSafeHavenIndex 9 = (9 + 1) / 5 * 5 - 1 ∧
  (9 ≤ 3 → getSafeHavenIndex 9 = -1) ∧
  (4 ≤ 9 ≤ 8 → getSafeHavenIndex 9 = 4) ∧
  (9 ≤ 9 ≤ 13 → getSafeHavenIndex 9 = 9) ∧
  (9 = 14 → getSafeHavenIndex 9 = 14).
Proof. apply (getSafeHavenIndex_milestones 9). lia. Defined.

Lemma answerIsCorrect_exactly_first_ranked_witness :
  ∃ presented : Z,
    getShuffledChoice Model.question5 0 = Some presented ∧
    0 ≤ presented < 4 ∧
    ∀ slot : Z,
      answerIsCorrect Model.question5 (Some slot)
      = bool_decide (slot = presented).
Proof.
  apply (answerIsCorrect_exactly_first_ranked Model.question5).
  - reflexivity.
  - apply (bool_decide_unpack _). vm_compute. exact I.
  - apply (bool_decide_unpack _). vm_compute. exact I.
Defined.

(** The 24 shuffles of the four slots, each against the 24 true orders,
    checked one by one. *)
Example answerIsCorrect_all_24_shuffles :
  Forall (λ ordered,
    Forall (λ shuffled,
      Model.one_correct_slot
        (HotSeatQuestion.mk ordered shuffled [] None false false 0) = true)
      (permutations [Choices.A; Choices.B; Choices.C; Choices.D]))
    (permutations [Choices.A; Choices.B; Choices.C; Choices.D]).
Proof. apply (bool_decide_unpack _). vm_compute. exact I. Qed.

Lemma toCompressed_correctChoice_and_choiceLocked_witness :
  (is_Some (toCompressed Model.question5 (Some 1) false !! "correctChoice")
   ↔ false = true) ∧
  toCompressed Model.question5 (Some 1) false !! "choiceLocked"
  = Some (JBool (bool_decide (Some 1 ≠ None))).
Proof.
  apply (toCompressed_correctChoice_and_choiceLocked
           Model.question5 (Some 1) false).
  vm_compute. reflexivity.
Defined.

(** C8, as the spec states it, fails.  With every choice revealed the
    method returns all four indexes where the spec expects none, and with
    no choice revealed it returns none where the spec expects all four. *)
Lemma getRemainingOrderedChoiceIndexes_not_the_unrevealed :
  getRemainingOrderedChoiceIndexes Model.question_all_revealed
  = [0; 1; 2; 3] ∧
  spec_notYetRevealedIndexes Model.question_all_revealed = [] ∧
  getRemainingOrderedChoiceIndexes Model.question_none_revealed = [] ∧
  spec_notYetRevealedIndexes Model.question_none_revealed = [0; 1; 2; 3] ∧
  getRemainingOrderedChoiceIndexes Model.question_all_revealed
  ≠ spec_notYetRevealedIndexes Model.question_all_revealed.
Proof. repeat split; try (vm_compute; reflexivity). by vm_compute. Qed.

End HotSeatQuestionFacts.

(** * Properties of the game server *)

Module GameServerFacts.

Import GameServer.

(** Unfolds the monad of methods and the accessors of [this]. *)
Ltac unfold_M :=
  unfold setOneChoiceHostStepDialog, _getOneChoiceHostStepDialog,
    _updateGame, updateGameForSocket, enter, logInfo, emit, setTimeout,
    clearTimeout, the_hotSeatPlayer, the_hotSeatQuestion,
    the_fastestFingerQuestion, the_player, modify_player, choice_of,
    modify_serverState, the_serverState;
  unfold mbind, M_bind, mret, M_ret, throw, get_this, modify_this, get_env,
    modify_env;
  cbn [fst snd serverState playerMap currentSocketEvent currentForcedTimer
       with_serverState with_playerMap with_currentSocketEvent
       with_currentForcedTimer].

(** Unfolds the assignments to the fields of [this] and of the
    environment. *)
Ltac unfold_with :=
  unfold with_serverState, with_playerMap, with_currentSocketEvent,
    with_currentForcedTimer, with_fastestFingerSession,
    with_hotSeatSession, with_timers, with_nextTimer, with_logged,
    with_emitted;
  cbn [playerMap serverState fastestFingerSession hotSeatSession
       currentForcedTimer currentSocketEvent timers nextTimer now logged
       emitted].

Section Facts.

Context {T E FFQ FFSession HSSession : Type} `{EqDecision T}.
Context {collaborators : Collaborators T E FFQ FFSession HSSession}.

Abbreviation world := (GameServer.world T E FFQ FFSession HSSession).
Implicit Types w : world.
Implicit Types g : GameServer.t T E FFQ FFSession HSSession.
Implicit Types e : GameServer.env T E FFQ.
Implicit Types ss : ServerState T E FFQ.


Lemma getOneChoiceHostStepDialog_run data w ss :
  serverState w.1 = Some ss →
  _getOneChoiceHostStepDialog data w = (Ok (oneChoiceDialog ss data), w).
Proof.
  intros Hss. unfold_M. rewrite Hss. unfold oneChoiceDialog.
  by destruct (playerShowHostPresent ss).
Qed.

(** *** What the listeners of the fastest finger round do *)


Lemma fastestFingerTimeUp_run socket data g e ss :
  serverState g = Some ss →
  let ss' := setShowHostStepDialog (Some (timeUpDialog ss)) ss in
  fastestFingerTimeUp socket data (g, e)
  = (Ok (),
     (GameServer.mk (playerMap g) (Some ss') (fastestFingerSession g)
        (hotSeatSession g) (currentForcedTimer g)
        (Some "fastestFingerTimeUp"%string),
      mkEnv
        (match currentForcedTimer g with
         | Some h => delete h (timers e)
         | None => timers e
         end)
        (nextTimer e) (now e)
        ("fastestFingerTimeUp"%string :: logged e)
        (UpdateGameForAll ss' (Some "fastestFingerTimeUp"%string)
           :: emitted e))).
Proof.
  intros Hss ss'. unfold fastestFingerTimeUp. unfold_M.
  subst ss'. unfold timeUpDialog, oneChoiceDialog.
  destruct (currentForcedTimer g) eqn:Hh; cbn; rewrite Hss;
    destruct (playerShowHostPresent ss); cbn; rewrite ?Hss; cbn;
    unfold_with; rewrite ?Hh; reflexivity.
Qed.


Lemma showHostRevealFastestFingerQuestionChoices_run
    socket data g e ss q :
  serverState g = Some ss →
  fastestFingerQuestion ss = Some q →
  let ss' := clockStarted ss q (now e) in
  let ev := "showHostRevealFastestFingerQuestionChoices"%string in
  showHostRevealFastestFingerQuestionChoices socket data (g, e)
  = (Ok (),
     (GameServer.mk (playerMap g) (Some ss') (fastestFingerSession g)
        (hotSeatSession g) (Some (nextTimer e)) (Some ev),
      mkEnv
        (<[nextTimer e := (CallFastestFingerTimeUp, 10000)]> (timers e))
        (S (nextTimer e)) (now e) (ev :: logged e)
        (UpdateGameForAll ss' (Some ev) :: emitted e))).
Proof.
  intros Hss Hq ss' ev.
  unfold showHostRevealFastestFingerQuestionChoices. unfold_M.
  rewrite Hss, Hq. cbn. rewrite Hss. cbn. reflexivity.
Qed.


Lemma contestantFastestFingerChoose_run (s : nat) c g e ss p :
  serverState g = Some ss →
  playerMap g !! s = Some p →
  let g' := with_playerMap (alter (chooseFastestFinger c) s (playerMap g)) g in
  let e' :=
    mkEnv (timers e) (nextTimer e) (now e) (chooseLine c :: logged e)
          (UpdateGameFor s ss (currentSocketEvent g) :: emitted e) in
  contestantFastestFingerChoose (Some s) (Data c) (g, e)
  = if allPlayersDoneWithFastestFinger ss (playerMap g')
    then fastestFingerTimeUp (Some s) (Data c) (g', e')
    else (Ok (), (g', e')).
Proof.
  intros Hss Hp g' e'. unfold contestantFastestFingerChoose. unfold_M.
  rewrite Hp. cbn. rewrite Hss. cbn. rewrite Hss. cbn.
  subst g' e'. unfold chooseLine. unfold_with.
  destruct (allPlayersDoneWithFastestFinger _ _); reflexivity.
Qed.

Lemma react_contestantFastestFingerChoose (s : nat) data w :
  react (Message s "contestantFastestFingerChoose" data) w
  = contestantFastestFingerChoose (Some s) data w.
Proof. reflexivity. Qed.

Lemma react_hotSeatChoose (s : nat) data w :
  react (Message s "hotSeatChoose" data) w = hotSeatChoose (Some s) data w.
Proof. reflexivity. Qed.

Lemma react_contestantChoose (s : nat) data w :
  react (Message s "contestantChoose" data) w
  = contestantChoose (Some s) data w.
Proof. reflexivity. Qed.

Lemma react_hotSeatFinalAnswer (s : nat) data w :
  react (Message s "hotSeatFinalAnswer" data) w
  = hotSeatFinalAnswer (Some s) data w.
Proof. reflexivity. Qed.

Lemma chooseLine_not_time_up c :
  chooseLine c ≠ "fastestFingerTimeUp"%string.
Proof. unfold chooseLine. cbn. discriminate. Qed.

Lemma times_logged_cons (line l : string) ts n t ls em :
  times_logged (T:=T) (E:=E) (FFQ:=FFQ) line (mkEnv ts n t (l :: ls) em)
  = ((if decide (l = line) then 1 else 0)
     + length (filter (λ l, l = line) ls))%nat.
Proof.
  unfold times_logged. cbn [logged]. rewrite filter_cons.
  by destruct (decide (l = line)).
Qed.

(** While the clock runs, a submission that leaves someone undecided
    changes neither the timers nor the phase, and the submission that
    completes the round fires the time-up phase and clears the timer. *)
Lemma submissions_fire_once (submissions : list (nat * option Z)) :
  ∀ g e ss (h : nat) callback ts,
    serverState g = Some ss →
    currentForcedTimer g = Some h →
    timers e = <[h := callback]> ts →
    ts !! h = None →
    completes_at_last ss (playerMap g) submissions = true →
    let final := run (submissions_events submissions) (g, e) in
    times_logged "fastestFingerTimeUp" final.2
    = S (times_logged "fastestFingerTimeUp" e) ∧
    currentSocketEvent final.1 = Some "fastestFingerTimeUp"%string ∧
    timers final.2 = ts ∧
    nextTimer final.2 = nextTimer e ∧
    serverState final.1
    = Some (setShowHostStepDialog (Some (timeUpDialog ss)) ss).
Proof.
  induction submissions as [|[s c] rest IH];
    intros g e ss h callback ts Hss Hh Hts Hfresh Hcomplete; [done |].
  cbn [completes_at_last fst snd] in Hcomplete.
  apply andb_true_iff in Hcomplete as [Hplayer Hrest].
  apply bool_decide_eq_true in Hplayer as [p Hp].
  unfold submissions_events. rewrite fmap_cons. cbn [run fst snd].
  rewrite react_contestantFastestFingerChoose.
  rewrite (contestantFastestFingerChoose_run s c g e ss p Hss Hp).
  cbn zeta. cbn [playerMap with_playerMap].
  destruct rest as [|next rest].
  - rewrite Hrest.
    rewrite (fastestFingerTimeUp_run _ _ _ _ ss) by done.
    cbn [run fmap list_fmap fst snd currentSocketEvent serverState timers
         nextTimer with_playerMap currentForcedTimer].
    rewrite Hh, Hts, delete_insert_eq, delete_id by done.
    rewrite times_logged_cons, decide_True by done. cbn [logged].
    rewrite filter_cons, decide_False by apply chooseLine_not_time_up.
    done.
  - apply andb_true_iff in Hrest as [Hnot Hrest].
    apply negb_true_iff in Hnot. rewrite Hnot. cbn [snd].
    match goal with
    | |- context [run _ (?g', ?e')] =>
        destruct (IH g' e' ss h callback ts) as (Hn & Hev & Ht & Hnext & Hs);
          [done | done | done | done | exact Hrest |]
    end.
    unfold submissions_events in *. cbn [snd fst] in *.
    rewrite Hn, Hev, Ht, Hnext, Hs.
    unfold times_logged at 1. cbn [logged nextTimer].
    rewrite filter_cons, decide_False by apply chooseLine_not_time_up.
    done.
Qed.


(** C6. The 10 second timer armed by
    [showHostRevealFastestFingerQuestionChoices] is pending when the
    contestants submit; once the submission arrives after which all of
    them are done, [fastestFingerTimeUp] has been entered exactly once,
    the timer is cleared and no other is armed, and the expiry of the
    superseded timer changes nothing. *)
Theorem fastestFingerTimeUp_fires_once_on_early_completion
    socket data w ss q (submissions : list (nat * option Z)) :
  serverState w.1 = Some ss →
  fastestFingerQuestion ss = Some q →
  timers w.2 !! nextTimer w.2 = None →
  completes_at_last (clockStarted ss q (now w.2)) (playerMap w.1)
                    submissions = true →
  let h := nextTimer w.2 in
  let armed :=
    (showHostRevealFastestFingerQuestionChoices socket data w).2 in
  let final := run (submissions_events submissions) armed in
  currentForcedTimer armed.1 = Some h ∧
  timers armed.2 !! h = Some (CallFastestFingerTimeUp, 10000) ∧
  times_logged "fastestFingerTimeUp" armed.2
  = times_logged "fastestFingerTimeUp" w.2 ∧
  times_logged "fastestFingerTimeUp" final.2
  = S (times_logged "fastestFingerTimeUp" w.2) ∧
  currentSocketEvent final.1 = Some "fastestFingerTimeUp"%string ∧
  timers final.2 = timers w.2 ∧
  timers final.2 !! h = None ∧
  react (TimerFires h) final = (Ok (), final).
Proof.
  destruct w as [g e]. cbn [fst snd].
  intros Hss Hq Hfresh Hcomplete.
  rewrite (showHostRevealFastestFingerQuestionChoices_run
             socket data g e ss q Hss Hq).
  cbn zeta. cbn [fst snd currentForcedTimer timers].
  match goal with
  | |- context [run _ (?g', ?e')] =>
      destruct (submissions_fire_once submissions g' e'
                  (clockStarted ss q (now e)) (nextTimer e)
                  (CallFastestFingerTimeUp, 10000) (timers e))
        as (Hn & Hev & Ht & _ & _);
        [done | done | done | done | exact Hcomplete |];
        set (final := run _ (g', e')) in *
  end.
  assert (Harmed :
    times_logged "fastestFingerTimeUp"
      (mkEnv (T:=T) (E:=E) (FFQ:=FFQ)
         (<[nextTimer e := (CallFastestFingerTimeUp, 10000)]> (timers e))
         (S (nextTimer e)) (now e)
         ("showHostRevealFastestFingerQuestionChoices"%string :: logged e)
         (UpdateGameForAll (clockStarted ss q (now e))
            (Some "showHostRevealFastestFingerQuestionChoices"%string)
            :: emitted e))
    = times_logged "fastestFingerTimeUp" e).
  { rewrite times_logged_cons. by rewrite decide_False. }
  rewrite Harmed in Hn.
  repeat split; try done.
  - by rewrite lookup_insert_eq.
  - by rewrite Ht.
  - unfold react. unfold_M. by rewrite Ht, Hfresh; destruct final.
Qed.


(** *** What the listeners of the hot seat round do *)


Lemma hotSeatChoose_run socket c g e ss (k : nat) p :
  serverState g = Some ss →
  hotSeatPlayer ss = Some k →
  playerMap g !! k = Some p →
  let ss' :=
    if playerShowHostPresent ss
    then setShowHostStepDialog (Some finalAnswerDialog) ss
    else setHotSeatStepDialog (Some finalAnswerDialog) ss in
  hotSeatChoose socket (Data c) (g, e)
  = (Ok (),
     (GameServer.mk (alter (chooseHotSeat c) k (playerMap g)) (Some ss')
        (fastestFingerSession g) (hotSeatSession g) (currentForcedTimer g)
        (Some "hotSeatChoose"%string),
      mkEnv (timers e) (nextTimer e) (now e)
        ("hotSeatChoose"%string :: logged e)
        (UpdateGameForAll ss' (Some "hotSeatChoose"%string)
           :: emitted e))).
Proof.
  intros Hss Hk Hp ss'. unfold hotSeatChoose. unfold_M.
  rewrite Hss. cbn. rewrite Hk, Hp. cbn. rewrite Hss. cbn. subst ss'.
  destruct (playerShowHostPresent ss); cbn; rewrite Hss; cbn;
    unfold_with; reflexivity.
Qed.

Lemma contestantChoose_run (s : nat) c g e ss p :
  serverState g = Some ss →
  playerMap g !! s = Some p →
  contestantChoose (Some s) (Data c) (g, e)
  = (Ok (),
     (with_playerMap (alter (chooseHotSeat c) s (playerMap g)) g,
      mkEnv (timers e) (nextTimer e) (now e)
        (("contestantChoose: " +:+ choice_to_string c) :: logged e)
        (UpdateGameFor s ss (currentSocketEvent g) :: emitted e))).
Proof.
  intros Hss Hp. unfold contestantChoose. unfold_M.
  rewrite Hp. cbn. rewrite Hss. cbn. unfold_with. reflexivity.
Qed.


Lemma hotSeatFinalAnswer_run socket data g e ss q (k : nat) p :
  serverState g = Some ss →
  hotSeatQuestion ss = Some q →
  hotSeatPlayer ss = Some k →
  playerMap g !! k = Some p →
  let ss1 :=
    with_hotSeatQuestion
      (Some (HotSeatQuestion.revealCorrectChoiceForShowHost q)) ss in
  let ss' :=
    setShowHostStepDialog
      (Some (oneChoiceDialog ss (finalAnswerOutcome ss q p))) ss1 in
  hotSeatFinalAnswer socket data (g, e)
  = (Ok (),
     (GameServer.mk (playerMap g) (Some ss') (fastestFingerSession g)
        (hotSeatSession g) (currentForcedTimer g)
        (Some "hotSeatFinalAnswer"%string),
      mkEnv (timers e) (nextTimer e) (now e)
        ("hotSeatFinalAnswer"%string :: logged e)
        (UpdateGameForAll ss' (Some "hotSeatFinalAnswer"%string)
           :: emitted e))).
Proof.
  intros Hss Hq Hk Hp ss1 ss'. unfold hotSeatFinalAnswer. unfold_M.
  rewrite Hss, Hq. cbn. rewrite Hss. cbn. rewrite Hk, Hp. cbn.
  subst ss' ss1. unfold finalAnswerOutcome, oneChoiceDialog.
  change (HotSeatQuestion.answerIsCorrect
            (HotSeatQuestion.revealCorrectChoiceForShowHost q))
    with (HotSeatQuestion.answerIsCorrect q).
  destruct (HotSeatQuestion.answerIsCorrect q (hotSeatChoice p)); cbn;
    change (playerShowHostPresent (with_hotSeatQuestion _ ss))
      with (playerShowHostPresent ss);
    destruct (playerShowHostPresent ss); cbn; unfold_with; reflexivity.
Qed.


(** *** The claims about the game server *)

(** C3. With a server state in place, [_getOneChoiceHostStepDialog]
    returns a dialog and changes nothing.  When a human show host is
    present the dialog has exactly one action, which targets the given
    next event, and neither a timeout function nor a timeout; when none
    is present it has no action, its timeout function is the closure
    that calls the listener of that same next event, and its timeout is
    the [aiTimeout] it was given. *)
Theorem oneChoiceHostStepDialog_host_or_timeout
    (data : oneChoiceData) w ss :
  serverState w.1 = Some ss →
  ∃ dialog,
    _getOneChoiceHostStepDialog data w = (Ok dialog, w) ∧
    (playerShowHostPresent ss = true →
       StepDialog.actions dialog
       = [StepDialog.Action (nextSocketEvent data)
                            (hostButtonMessage data)] ∧
       StepDialog.timeoutFunc dialog = None ∧
       StepDialog.timeoutMs dialog = None) ∧
    (playerShowHostPresent ss = false →
       StepDialog.actions dialog = [] ∧
       StepDialog.timeoutFunc dialog
       = Some (StepDialog.InvokeListener (nextSocketEvent data)) ∧
       StepDialog.timeoutMs dialog = aiTimeout data ∧
       run_closure (StepDialog.InvokeListener (nextSocketEvent data))
       = call_by_name (nextSocketEvent data) None (Data None)).
Proof.
  intros Hss. exists (oneChoiceDialog ss data).
  split; [by apply getOneChoiceHostStepDialog_run |].
  unfold oneChoiceDialog. split; intros ->; done.
Qed.

(** C5 fails on the code.  Ten of the names in [SOCKET_EVENTS] name no
    method of the class, and the function [activateListenersForSocket]
    registers for one of them, here the event of a lost hot seat
    question, throws a TypeError when a message of that name arrives. *)
Theorem socket_events_without_listener (s : nat) data w :
  filter (λ ev, ev ∉ listener_names) SOCKET_EVENTS
  = [ "showHostHighlightLifeline"; "showHostAskTheAudience";
      "showHostDoFiftyFifty"; "showHostPhoneAFriend";
      "showHostRevealHotSeatQuestionLoss"; "showHostShowScores";
      "contestantSetConfidence"; "hotSeatUseLifeline";
      "hotSeatConfirmLifeline"; "hotSeatPickPhoneAFriend" ]%string ∧
  react (Message s "showHostRevealHotSeatQuestionLoss" data) w
  = (Throw (TypeError "this[socketEvent] is not a function"), w).
Proof. split; [by vm_compute | reflexivity]. Qed.

(** C7, as the code has it.  [contestantFastestFingerChoose] does not
    look at the current phase.  Whatever [currentSocketEvent] is, the
    sender's [chooseFastestFinger] receives the choice and the sender is
    sent an update, of the server state and the current event as the
    message found them; if all players are then done,
    [fastestFingerTimeUp] runs once more, making ['fastestFingerTimeUp']
    the current event, installing its dialog anew and sending that state
    to all; otherwise nothing more is sent and the current event and the
    server state stay as they were. *)
Theorem contestantFastestFingerChoose_in_any_phase (s : nat) c w ss p :
  serverState w.1 = Some ss →
  playerMap w.1 !! s = Some p →
  ∃ w',
    react (Message s "contestantFastestFingerChoose" (Data c)) w
    = (Ok (), w') ∧
    playerMap w'.1 = alter (chooseFastestFinger c) s (playerMap w.1) ∧
    emitted w'.2
    = (if allPlayersDoneWithFastestFinger ss (playerMap w'.1)
       then [UpdateGameForAll
               (setShowHostStepDialog (Some (timeUpDialog ss)) ss)
               (Some "fastestFingerTimeUp"%string)]
       else [])
      ++ UpdateGameFor s ss (currentSocketEvent w.1) :: emitted w.2 ∧
    (allPlayersDoneWithFastestFinger ss (playerMap w'.1) = true →
       currentSocketEvent w'.1 = Some "fastestFingerTimeUp"%string ∧
       serverState w'.1
       = Some (setShowHostStepDialog (Some (timeUpDialog ss)) ss) ∧
       times_logged "fastestFingerTimeUp" w'.2
       = S (times_logged "fastestFingerTimeUp" w.2)) ∧
    (allPlayersDoneWithFastestFinger ss (playerMap w'.1) = false →
       currentSocketEvent w'.1 = currentSocketEvent w.1 ∧
       serverState w'.1 = serverState w.1).
Proof.
  destruct w as [g e]. cbn [fst snd]. intros Hss Hp.
  rewrite react_contestantFastestFingerChoose.
  rewrite (contestantFastestFingerChoose_run s c g e ss p Hss Hp).
  cbn zeta. cbn [playerMap with_playerMap].
  destruct (allPlayersDoneWithFastestFinger ss _) eqn:Hdone.
  - rewrite (fastestFingerTimeUp_run _ _ _ _ ss) by done.
    eexists. split; [reflexivity |].
    cbn [fst snd playerMap with_playerMap emitted currentSocketEvent].
    rewrite Hdone. split; [done |]. split; [done |].
    split; [| done]. intros _.
    cbn [currentSocketEvent serverState].
    rewrite times_logged_cons, decide_True by done. cbn [logged].
    rewrite filter_cons, decide_False by apply chooseLine_not_time_up.
    done.
  - eexists. split; [reflexivity |].
    cbn [fst snd playerMap with_playerMap emitted currentSocketEvent].
    rewrite Hdone. done.
Qed.

(** C9, as the code has it.  No listener of a choice checks
    [isValidChoice].  For every [data.choice], valid or not, and with
    the server state and the players in place: [hotSeatChoose] hands
    the choice to the hot seat player's [chooseHotSeat], makes
    ['hotSeatChoose'] the current event and installs the yes/no dialog
    in the server state, for the show host if one is present and for
    the hot seat player otherwise; [contestantChoose] hands the choice
    to the sender's [chooseHotSeat] and leaves the server state and the
    current event alone; [contestantFastestFingerChoose] hands it to
    the sender's [chooseFastestFinger].  None of them throws. *)
Theorem choice_listeners_do_not_validate
    (s : nat) c w ss (k : nat) seated sender :
  serverState w.1 = Some ss →
  hotSeatPlayer ss = Some k →
  playerMap w.1 !! k = Some seated →
  playerMap w.1 !! s = Some sender →
  (∃ w',
     react (Message s "hotSeatChoose" (Data c)) w = (Ok (), w') ∧
     playerMap w'.1 = alter (chooseHotSeat c) k (playerMap w.1) ∧
     currentSocketEvent w'.1 = Some "hotSeatChoose"%string ∧
     serverState w'.1
     = Some (if playerShowHostPresent ss
             then setShowHostStepDialog (Some finalAnswerDialog) ss
             else setHotSeatStepDialog (Some finalAnswerDialog) ss)) ∧
  (∃ w',
     react (Message s "contestantChoose" (Data c)) w = (Ok (), w') ∧
     playerMap w'.1 = alter (chooseHotSeat c) s (playerMap w.1) ∧
     currentSocketEvent w'.1 = currentSocketEvent w.1 ∧
     serverState w'.1 = serverState w.1) ∧
  (∃ w',
     react (Message s "contestantFastestFingerChoose" (Data c)) w
     = (Ok (), w') ∧
     playerMap w'.1 = alter (chooseFastestFinger c) s (playerMap w.1)).
Proof.
  intros Hss Hk Hseated Hsender. split; [| split].
  - destruct w as [g e]. cbn [fst snd] in *.
    rewrite react_hotSeatChoose.
    rewrite (hotSeatChoose_run _ c g e ss k seated Hss Hk Hseated).
    eexists. split; [reflexivity |]. done.
  - destruct w as [g e]. cbn [fst snd] in *.
    rewrite react_contestantChoose.
    rewrite (contestantChoose_run s c g e ss sender Hss Hsender).
    eexists. split; [reflexivity |]. done.
  - destruct w as [g e]. cbn [fst snd] in *.
    rewrite react_contestantFastestFingerChoose.
    rewrite (contestantFastestFingerChoose_run s c g e ss sender Hss Hsender).
    cbn zeta. cbn [playerMap with_playerMap].
    destruct (allPlayersDoneWithFastestFinger ss _).
    + rewrite (fastestFingerTimeUp_run _ _ _ _ ss) by done.
      eexists. split; [reflexivity |]. done.
    + eexists. split; [reflexivity |]. done.
Qed.

(** C10. On the hot seat question of index 4 and with no human show
    host, [hotSeatFinalAnswer] installs for the show host the automatic
    dialog whose timeout function calls the listener of the loss event
    when the locked-in answer is wrong, and of the victory event when
    it is right, in both cases after [FINAL_ANSWER_WAIT_TIMES[4]], that
    is 1500 milliseconds. *)
Theorem hotSeatFinalAnswer_index_4_waits_1500
    (s : nat) data w ss q (k : nat) p :
  serverState w.1 = Some ss →
  hotSeatQuestion ss = Some q →
  hotSeatPlayer ss = Some k →
  playerMap w.1 !! k = Some p →
  hotSeatQuestionIndex ss = 4 →
  playerShowHostPresent ss = false →
  js_get FINAL_ANSWER_WAIT_TIMES 4 = Some 1500 ∧
  ∃ w',
    react (Message s "hotSeatFinalAnswer" data) w = (Ok (), w') ∧
    currentSocketEvent w'.1 = Some "hotSeatFinalAnswer"%string ∧
    showHostStepDialog <$> serverState w'.1
    = Some (Some (StepDialog.new []
                    (Some (StepDialog.InvokeListener
                             (if HotSeatQuestion.answerIsCorrect
                                   q (hotSeatChoice p)
                              then "showHostRevealHotSeatQuestionVictory"
                              else "showHostRevealHotSeatQuestionLoss")))
                    (Some 1500) None)).
Proof.
  intros Hss Hq Hk Hp Hindex Hhost. split; [reflexivity |].
  destruct w as [g e]. cbn [fst snd] in *.
  rewrite react_hotSeatFinalAnswer.
  rewrite (hotSeatFinalAnswer_run _ data g e ss q k p Hss Hq Hk Hp).
  eexists. split; [reflexivity |]. cbn [fst snd currentSocketEvent].
  split; [done |]. cbn [serverState fmap option_fmap option_map].
  unfold oneChoiceDialog, finalAnswerOutcome. rewrite Hhost, Hindex.
  by destruct (HotSeatQuestion.answerIsCorrect q (hotSeatChoice p)).
Qed.

End Facts.

(** *** The claims on a concrete game *)

Lemma oneChoiceHostStepDialog_host_or_timeout_witness :
  let data := OneChoice "showHostCueHotSeatQuestion" "Cue question"
                        (Some 5000) in
  ∃ dialog,
    _getOneChoiceHostStepDialog data Model.hot_seat_world
    = (Ok dialog, Model.hot_seat_world) ∧
    (playerShowHostPresent Model.hot_seat_state = true →
       StepDialog.actions dialog
       = [StepDialog.Action (nextSocketEvent data)
                            (hostButtonMessage data)] ∧
       StepDialog.timeoutFunc dialog = None ∧
       StepDialog.timeoutMs dialog = None) ∧
    (playerShowHostPresent Model.hot_seat_state = false →
       StepDialog.actions dialog = [] ∧
       StepDialog.timeoutFunc dialog
       = Some (StepDialog.InvokeListener (nextSocketEvent data)) ∧
       StepDialog.timeoutMs dialog = aiTimeout data ∧
       run_closure (StepDialog.InvokeListener (nextSocketEvent data))
       = call_by_name (nextSocketEvent data) None (Data None)).
Proof.
  intros data.
  apply (oneChoiceHostStepDialog_host_or_timeout
           data Model.hot_seat_world Model.hot_seat_state).
  reflexivity.
Defined.

(** With a human show host the same call offers the host one action. *)
Example oneChoiceHostStepDialog_with_host :
  _getOneChoiceHostStepDialog
    (OneChoice "showHostCueHotSeatQuestion" "Cue question" (Some 5000))
    Model.hosted_world
  = (Ok (StepDialog.new
           [StepDialog.Action "showHostCueHotSeatQuestion" "Cue question"]
           None None None),
     Model.hosted_world).
Proof. reflexivity. Qed.

Lemma fastestFingerTimeUp_fires_once_on_early_completion_witness :
  let w := Model.three_strikes_world in
  let h := nextTimer w.2 in
  let armed :=
    (showHostRevealFastestFingerQuestionChoices None NoData w).2 in
  let final := run (submissions_events Model.all_submissions) armed in
  currentForcedTimer armed.1 = Some h ∧
  timers armed.2 !! h = Some (CallFastestFingerTimeUp, 10000) ∧
  times_logged "fastestFingerTimeUp" armed.2
  = times_logged "fastestFingerTimeUp" w.2 ∧
  times_logged "fastestFingerTimeUp" final.2
  = S (times_logged "fastestFingerTimeUp" w.2) ∧
  currentSocketEvent final.1 = Some "fastestFingerTimeUp"%string ∧
  timers final.2 = timers w.2 ∧
  timers final.2 !! h = None ∧
  react (TimerFires h) final = (Ok (), final).
Proof.
  apply (fastestFingerTimeUp_fires_once_on_early_completion
           None NoData Model.three_strikes_world Model.three_strikes_state
           Model.fastest_finger_question Model.all_submissions).
  - reflexivity.
  - reflexivity.
  - reflexivity.
  - vm_compute. reflexivity.
Defined.

Lemma contestantFastestFingerChoose_in_any_phase_witness :
  ∃ w',
    react (Message 2 "contestantFastestFingerChoose" (Data (Some 3)))
          Model.late_world
    = (Ok (), w') ∧
    playerMap w'.1
    = alter (chooseFastestFinger (Some 3)) 2%nat
            (playerMap Model.late_world.1) ∧
    emitted w'.2
    = (if allPlayersDoneWithFastestFinger Model.late_state (playerMap w'.1)
       then [UpdateGameForAll
               (setShowHostStepDialog
                  (Some (timeUpDialog Model.late_state)) Model.late_state)
               (Some "fastestFingerTimeUp"%string)]
       else [])
      ++ UpdateGameFor 2 Model.late_state
           (currentSocketEvent Model.late_world.1)
         :: emitted Model.late_world.2 ∧
    (allPlayersDoneWithFastestFinger Model.late_state (playerMap w'.1)
     = true →
       currentSocketEvent w'.1 = Some "fastestFingerTimeUp"%string ∧
       serverState w'.1
       = Some (setShowHostStepDialog
                 (Some (timeUpDialog Model.late_state)) Model.late_state) ∧
       times_logged "fastestFingerTimeUp" w'.2
       = S (times_logged "fastestFingerTimeUp" Model.late_world.2)) ∧
    (allPlayersDoneWithFastestFinger Model.late_state (playerMap w'.1)
     = false →
       currentSocketEvent w'.1 = currentSocketEvent Model.late_world.1 ∧
       serverState w'.1 = serverState Model.late_world.1).
Proof.
  apply (contestantFastestFingerChoose_in_any_phase
           2 (Some 3) Model.late_world Model.late_state Model.bob_done).
  - reflexivity.
  - vm_compute. reflexivity.
Defined.

(** The two worlds of the next lemma arise in a game: from
    [Model.three_strikes_world], the choices are revealed and either both
    contestants order all four choices and the game moves on, or Bob is
    halfway when the timer of handle 1 fires. *)
Example late_worlds_are_reached :
  let reveal :=
    Message 1 "showHostRevealFastestFingerQuestionChoices" NoData in
  let late :=
    run (reveal :: submissions_events Model.all_submissions
           ++ [Message 1 "showHostCueFastestFingerAnswerRevealAudio" NoData])
        Model.three_strikes_world in
  let time_up :=
    run (reveal :: submissions_events (take 4 Model.all_submissions
                                         ++ [(1%nat, Some 1); (1%nat, Some 3)])
           ++ [TimerFires 1])
        Model.three_strikes_world in
  (late.1 = Model.late_world.1 ∧ timers late.2 = ∅) ∧
  (time_up.1 = Model.time_up_world.1 ∧ timers time_up.2 = ∅).
Proof. repeat split; vm_compute; reflexivity. Qed.

(** C7, as the spec states it, fails.  In [Model.late_world] the game has
    left fastest finger for the cue of the answer reveal; a submission
    that arrives then takes the game back to ['fastestFingerTimeUp'] and
    replaces the dialog in the server state.  In [Model.time_up_world]
    the clock has run out on Bob's unfinished answer; a submission that
    arrives then is added to it. *)
Lemma late_submission_is_not_ignored :
  let late :=
    (react (Message 2 "contestantFastestFingerChoose" (Data (Some 3)))
           Model.late_world).2 in
  let added :=
    (react (Message 2 "contestantFastestFingerChoose" (Data (Some 2)))
           Model.time_up_world).2 in
  currentSocketEvent Model.late_world.1
  = Some "showHostCueFastestFingerAnswerRevealAudio"%string ∧
  currentSocketEvent late.1 = Some "fastestFingerTimeUp"%string ∧
  serverState late.1 ≠ serverState Model.late_world.1 ∧
  currentSocketEvent Model.time_up_world.1
  = Some "fastestFingerTimeUp"%string ∧
  fastestFingerChoices <$> playerMap Model.time_up_world.1 !! 2%nat
  = Some [0; 1] ∧
  fastestFingerChoices <$> playerMap added.1 !! 2%nat = Some [0; 1; 2].
Proof. repeat split; try (vm_compute; reflexivity). by vm_compute. Qed.

Lemma choice_listeners_do_not_validate_witness :
  (∃ w',
     react (Message 1 "hotSeatChoose" (Data (Some 7))) Model.hot_seat_world
     = (Ok (), w') ∧
     playerMap w'.1
     = alter (chooseHotSeat (Some 7)) 1%nat
             (playerMap Model.hot_seat_world.1) ∧
     currentSocketEvent w'.1 = Some "hotSeatChoose"%string ∧
     serverState w'.1
     = Some (if playerShowHostPresent Model.hot_seat_state
             then setShowHostStepDialog (Some finalAnswerDialog)
                    Model.hot_seat_state
             else setHotSeatStepDialog (Some finalAnswerDialog)
                    Model.hot_seat_state)) ∧
  (∃ w',
     react (Message 1 "contestantChoose" (Data (Some 7)))
           Model.hot_seat_world
     = (Ok (), w') ∧
     playerMap w'.1
     = alter (chooseHotSeat (Some 7)) 1%nat
             (playerMap Model.hot_seat_world.1) ∧
     currentSocketEvent w'.1 = currentSocketEvent Model.hot_seat_world.1 ∧
     serverState w'.1 = serverState Model.hot_seat_world.1) ∧
  (∃ w',
     react (Message 1 "contestantFastestFingerChoose" (Data (Some 7)))
           Model.hot_seat_world
     = (Ok (), w') ∧
     playerMap w'.1
     = alter (chooseFastestFinger (Some 7)) 1%nat
             (playerMap Model.hot_seat_world.1)).
Proof.
  apply (choice_listeners_do_not_validate
           1 (Some 7) Model.hot_seat_world Model.hot_seat_state
           1 Model.ann_seated Model.ann_seated).
  - reflexivity.
  - reflexivity.
  - vm_compute. reflexivity.
  - vm_compute. reflexivity.
Defined.

(** C9, as the spec states it, fails.  7 is none of the four slots, and
    [hotSeatChoose] with that choice returns normally with the yes/no
    dialog installed in a server state that offered no dialog before. *)
Lemma invalid_hot_seat_choice_changes_the_server_state :
  let w := Model.hot_seat_world in
  let after := react (Message 1 "hotSeatChoose" (Data (Some 7))) w in
  Choices.isValidChoice (Some 7) = false ∧
  after.1 = Ok () ∧
  hotSeatStepDialog <$> serverState w.1 = Some None ∧
  hotSeatStepDialog <$> serverState after.2.1
  = Some (Some (StepDialog.new
                  [StepDialog.Action "hotSeatFinalAnswer" "Yes";
                   StepDialog.Action "showHostRevealHotSeatChoice" "No"]
                  None None (Some "Final answer?"%string))) ∧
  serverState after.2.1 ≠ serverState w.1 ∧
  currentSocketEvent after.2.1 ≠ currentSocketEvent w.1.
Proof. repeat split; try (vm_compute; reflexivity); by vm_compute. Qed.

Lemma hotSeatFinalAnswer_index_4_waits_1500_witness :
  js_get FINAL_ANSWER_WAIT_TIMES 4 = Some 1500 ∧
  ∃ w',
    react (Message 1 "hotSeatFinalAnswer" (Data None)) Model.answered_world
    = (Ok (), w') ∧
    currentSocketEvent w'.1 = Some "hotSeatFinalAnswer"%string ∧
    showHostStepDialog <$> serverState w'.1
    = Some (Some (StepDialog.new []
                    (Some (StepDialog.InvokeListener
                             (if HotSeatQuestion.answerIsCorrect
                                   Model.question5
                                   (hotSeatChoice Model.ann_answered)
                              then "showHostRevealHotSeatQuestionVictory"
                              else "showHostRevealHotSeatQuestionLoss")))
                    (Some 1500) None)).
Proof.
  apply (hotSeatFinalAnswer_index_4_waits_1500
           1 (Data None) Model.answered_world Model.answered_state
           Model.question5 1 Model.ann_answered).
  - reflexivity.
  - reflexivity.
  - reflexivity.
  - vm_compute. reflexivity.
  - reflexivity.
  - reflexivity.
Defined.

(** The wrong answer of [Model.answered_world] leads to the loss event. *)
Example wrong_answer_at_index_4 :
  HotSeatQuestion.answerIsCorrect Model.question5
    (hotSeatChoice Model.ann_answered) = false ∧
  showHostStepDialog
  <$> serverState
        (react (Message 1 "hotSeatFinalAnswer" (Data None))
               Model.answered_world).2.1
  = Some (Some (StepDialog.new []
                  (Some (StepDialog.InvokeListener
                           "showHostRevealHotSeatQuestionLoss"))
                  (Some 1500) None)).
Proof. split; vm_compute; reflexivity. Qed.

End GameServerFacts.

(** * Properties of the choices *)

Module ChoicesFacts.

Import Choices.

(** X1. The valid choices are the numbers 0 to 3, [undefined] is not one
    of them; [getString] is the empty string exactly on the choices that
    are not valid, and gives different valid choices different strings. *)
Theorem getString_names_the_valid_choices (choice : option Z) :
  (isValidChoice choice = true
   ↔ ∃ n, choice = Some n ∧ 0 ≤ n < MAX_CHOICES) ∧
  (getString choice = ""%string ↔ isValidChoice choice = false) ∧
  ∀ other,
    isValidChoice choice = true →
    getString choice = getString other → choice = other.
Proof.
  assert (Hvalid : ∀ c, isValidChoice c = true
                        ↔ ∃ n, c = Some n ∧ 0 ≤ n < MAX_CHOICES).
  { intros [n|]; cbn [isValidChoice].
    - rewrite bool_decide_eq_true.
      unfold VALID_CHOICES, A, B, C, D, MAX_CHOICES.
      rewrite !elem_of_union, !elem_of_singleton. split.
      + intros Hn. exists n. split; [done | lia].
      + intros (n' & [= <-] & Hn). lia.
    - split; [done | by intros (n & ? & _)]. }
  assert (Hcases : ∀ c,
            isValidChoice c = true →
            c = Some 0 ∨ c = Some 1 ∨ c = Some 2 ∨ c = Some 3).
  { intros c Hc. apply Hvalid in Hc as (n & -> & Hn).
    unfold MAX_CHOICES in Hn.
    assert (n = 0 ∨ n = 1 ∨ n = 2 ∨ n = 3) as [->|[->|[->| ->]]] by lia;
      auto. }
  split; [apply Hvalid |]. split.
  - destruct (isValidChoice choice) eqn:Hc.
    + by destruct (Hcases _ Hc) as [->|[->|[->| ->]]].
    + unfold getString. by rewrite Hc.
  - intros other Hc Heq.
    destruct (isValidChoice other) eqn:Ho.
    + destruct (Hcases _ Hc) as [->|[->|[->| ->]]];
        destruct (Hcases _ Ho) as [->|[->|[->| ->]]]; done.
    + unfold getString at 2 in Heq. rewrite Ho in Heq.
      by destruct (Hcases _ Hc) as [->|[->|[->| ->]]].
Qed.

End ChoicesFacts.


(** * Further properties of a hot seat question *)

Module HotSeatQuestionMore.

Import HotSeatQuestion HotSeatQuestionFacts.

Section More.

Context {T E : Type} `{EqDecision T}.
Implicit Types q : HotSeatQuestion.t T E.

(** The loop stops at the first position that holds the target. *)
Lemma getShuffledChoice_loop_Some (x : T) (rest : list T) (i r : Z) :
  getShuffledChoice_loop (Some x) rest i = Some r ↔
  ∃ k : nat,
    r = i + Z.of_nat k ∧ rest !! k = Some x ∧
    ∀ j : nat, (j < k)%nat → rest !! j ≠ Some x.
Proof.
  revert i. induction rest as [|y rest IH]; intros i.
  - split; [done | by intros (k & _ & Hk & _)].
  - cbn [getShuffledChoice_loop]. unfold loose_eq.
    destruct (decide (y = x)) as [->|Hne].
    + rewrite bool_decide_eq_true_2 by done. split.
      * intros [= <-]. exists 0%nat. split; [lia |]. split; [done |]. lia.
      * intros (k & -> & Hk & Hmin). destruct k as [|k]; [f_equal; lia |].
        by destruct (Hmin 0%nat ltac:(lia)).
    + rewrite bool_decide_eq_false_2 by congruence. rewrite IH. split.
      * intros (k & -> & Hk & Hmin). exists (S k).
        split; [lia |]. split; [done |].
        intros [|j] Hj; cbn; [congruence | apply Hmin; lia].
      * intros (k & -> & Hk & Hmin). destruct k as [|k]; [by simplify_eq/= |].
        exists k. split; [lia |]. split; [done |].
        intros j Hj. apply (Hmin (S j)). lia.
Qed.

Lemma getShuffledChoice_sound q (orderedIndex i : Z) :
  getShuffledChoice q orderedIndex = Some i →
  0 ≤ i ∧
  ∃ x, js_get (orderedChoices q) orderedIndex = Some x ∧
       shuffledChoices q !! Z.to_nat i = Some x.
Proof.
  unfold getShuffledChoice.
  destruct (js_get (orderedChoices q) orderedIndex) as [x|] eqn:Hx.
  - rewrite getShuffledChoice_loop_Some. intros (k & -> & Hk & _).
    split; [lia |]. exists x. split; [done |].
    by rewrite Z.add_0_l, Nat2Z.id.
  - by rewrite getShuffledChoice_loop_undefined.
Qed.

(** X2. [getShuffledChoice] returns the first position of
    [shuffledChoices] that holds the choice of the given true rank, and
    [undefined] when there is no such choice or no such position. *)
Theorem getShuffledChoice_first_position q (orderedIndex i : Z) :
  getShuffledChoice q orderedIndex = Some i ↔
  ∃ x,
    js_get (orderedChoices q) orderedIndex = Some x ∧
    js_get (shuffledChoices q) i = Some x ∧
    ∀ j, 0 ≤ j < i → js_get (shuffledChoices q) j ≠ Some x.
Proof.
  unfold getShuffledChoice.
  destruct (js_get (orderedChoices q) orderedIndex) as [x|] eqn:Hx.
  - rewrite getShuffledChoice_loop_Some. split.
    + intros (k & -> & Hk & Hmin). exists x. split; [done |].
      rewrite Z.add_0_l, js_get_nat. split; [done |].
      intros j Hj. rewrite <- (Z2Nat.id j) by lia. rewrite js_get_nat.
      apply Hmin. lia.
    + intros (x' & [= <-] & Hi & Hmin).
      apply js_get_Some in Hi as [Hpos Hi].
      exists (Z.to_nat i). split; [lia |]. split; [done |].
      intros j Hj. rewrite <- js_get_nat. apply Hmin. lia.
  - rewrite getShuffledChoice_loop_undefined.
    split; [done | by intros (x & ? & _)].
Qed.

(** X3. When [shuffledChoices] is a permutation of distinct
    [orderedChoices], [getShuffledChoice] sends every true rank to a
    presented slot that holds the choice of that rank, and different ranks
    to different slots. *)
Theorem getShuffledChoice_inverts_the_shuffle q :
  NoDup (orderedChoices q) →
  shuffledChoices q ≡ₚ orderedChoices q →
  (∀ k, 0 ≤ k < Z.of_nat (length (orderedChoices q)) →
        ∃ i, getShuffledChoice q k = Some i ∧
             0 ≤ i < Z.of_nat (length (orderedChoices q)) ∧
             js_get (shuffledChoices q) i = js_get (orderedChoices q) k) ∧
  (∀ k k' i, getShuffledChoice q k = Some i →
             getShuffledChoice q k' = Some i → k = k').
Proof.
  intros Hnodup Hperm. split.
  - intros k Hk.
    destruct (lookup_lt_is_Some_2 (orderedChoices q) (Z.to_nat k)
                ltac:(lia)) as [x Hx].
    assert (Hin : x ∈ shuffledChoices q).
    { rewrite Hperm. by eapply list_elem_of_lookup_2. }
    destruct (getShuffledChoice_loop_found x _ 0 Hin) as (i & Hi & Hloop).
    exists (Z.of_nat i).
    assert (Hget : js_get (orderedChoices q) k = Some x)
      by (apply js_get_Some; split; [lia | done]).
    unfold getShuffledChoice. rewrite Hget, Hloop.
    split; [f_equal; lia |].
    rewrite js_get_nat, Hi. split; [| done].
    apply lookup_lt_Some in Hi. rewrite Hperm in Hi. lia.
  - intros k k' i Hk Hk'.
    apply getShuffledChoice_sound in Hk as (_ & x & Hx & Hi).
    apply getShuffledChoice_sound in Hk' as (_ & x' & Hx' & Hi').
    assert (x' = x) as -> by congruence.
    apply js_get_Some in Hx as [Hpos Hx].
    apply js_get_Some in Hx' as [Hpos' Hx'].
    pose proof (NoDup_lookup _ _ _ _ Hnodup Hx Hx'). lia.
Qed.

(** X4. The slot [getCorrectChoice] returns is graded as correct; when it
    returns [undefined], grading [undefined] is correct only for a question
    with no choices at all.  A slot is correct exactly when it holds what
    the slot of [getCorrectChoice] holds. *)
Theorem answerIsCorrect_getCorrectChoice q :
  (answerIsCorrect q (getCorrectChoice q) = true
   ↔ is_Some (getCorrectChoice q) ∨ orderedChoices q = []) ∧
  ∀ slot c,
    getCorrectChoice q = Some c →
    answerIsCorrect q (Some slot)
    = bool_decide (js_get (shuffledChoices q) slot
                   = js_get (shuffledChoices q) c).
Proof.
  split.
  - unfold answerIsCorrect, loose_eq.
    destruct (getCorrectChoice q) as [c|] eqn:Hc.
    + apply getShuffledChoice_sound in Hc as (Hpos & x & Hx & Hi).
      cbn [js_get_at]. rewrite Hx.
      rewrite (proj2 (js_get_Some _ _ _) (conj Hpos Hi)).
      rewrite bool_decide_eq_true_2 by done. split; [| done].
      intros _. left. by eexists.
    + cbn [js_get_at]. rewrite bool_decide_eq_true.
      split.
      * intros Hnone. right. symmetry in Hnone.
        destruct (orderedChoices q); [done | by cbv in Hnone].
      * intros [[? [=]] | ->]. done.
  - intros slot c Hc. unfold answerIsCorrect, loose_eq. cbn [js_get_at].
    apply getShuffledChoice_sound in Hc as (Hpos & x & Hx & Hi).
    by rewrite Hx, (proj2 (js_get_Some _ c x) (conj Hpos Hi)).
Qed.

End More.

(** X5. On any index that is a safe integer, negative ones and those past
    the last question included, [getSafeHavenIndex] is one less than a
    multiple of five, at most the index and less than five below it; it
    leaves a safe haven where it is and never decreases as the index
    grows within the safe integers. *)
Theorem getSafeHavenIndex_any_index (failedIndex : Z) :
  is_safe_integer failedIndex →
  let safe := getSafeHavenIndex failedIndex in
  is_safe_integer safe ∧
  (safe + 1) mod 5 = 0 ∧
  safe ≤ Z.max 0 failedIndex < safe + 5 ∧
  getSafeHavenIndex safe = safe ∧
  ∀ later,
    is_safe_integer later →
    failedIndex ≤ later → safe ≤ getSafeHavenIndex later.
Proof.
  assert (Hform : ∀ n, getSafeHavenIndex n = 5 * ((Z.max 0 n + 1) / 5) - 1).
  { intros n. unfold getSafeHavenIndex. cbv zeta.
    rewrite Z.rem_mod_nonneg by lia.
    pose proof (Z.div_mod (Z.max 0 n + 1) 5 ltac:(lia)). lia. }
  unfold is_safe_integer, MAX_SAFE_INTEGER. intros Hsafe.
  cbv zeta. rewrite Hform.
  pose proof (Z.div_mod (Z.max 0 failedIndex + 1) 5 ltac:(lia)) as Hdm.
  pose proof (Z.mod_pos_bound (Z.max 0 failedIndex + 1) 5 ltac:(lia)) as Hb.
  assert (Hq : 0 ≤ (Z.max 0 failedIndex + 1) / 5)
    by (apply Z.div_pos; lia).
  split; [lia |]. split; [| split; [lia | split]].
  - replace (5 * ((Z.max 0 failedIndex + 1) / 5) - 1 + 1)
      with (((Z.max 0 failedIndex + 1) / 5) * 5) by lia.
    apply Z.mod_mul. lia.
  - rewrite Hform.
    destruct (decide ((Z.max 0 failedIndex + 1) / 5 = 0)) as [Hz | Hnz].
    + rewrite Hz. reflexivity.
    + rewrite Z.max_r by lia.
      replace (5 * ((Z.max 0 failedIndex + 1) / 5) - 1 + 1)
        with (((Z.max 0 failedIndex + 1) / 5) * 5) by lia.
      rewrite Z.div_mul by lia. lia.
  - intros later _ Hlater. rewrite Hform.
    assert ((Z.max 0 failedIndex + 1) / 5 ≤ (Z.max 0 later + 1) / 5)
      by (apply Z.div_le_mono; lia).
    lia.
Qed.

Lemma getSafeHavenIndex_any_index_witness :
  let safe := getSafeHavenIndex 17 in
  is_safe_integer safe ∧
  (safe + 1) mod 5 = 0 ∧
  safe ≤ Z.max 0 17 < safe + 5 ∧
  getSafeHavenIndex safe = safe ∧
  ∀ later,
    is_safe_integer later →
    17 ≤ later → safe ≤ getSafeHavenIndex later.
Proof.
  apply (getSafeHavenIndex_any_index 17).
  unfold is_safe_integer, MAX_SAFE_INTEGER. lia.
Defined.

Lemma getShuffledChoice_inverts_the_shuffle_witness :
  let q := Model.question5 in
  (∀ k, 0 ≤ k < Z.of_nat (length (orderedChoices q)) →
        ∃ i, getShuffledChoice q k = Some i ∧
             0 ≤ i < Z.of_nat (length (orderedChoices q)) ∧
             js_get (shuffledChoices q) i = js_get (orderedChoices q) k) ∧
  (∀ k k' i, getShuffledChoice q k = Some i →
             getShuffledChoice q k' = Some i → k = k').
Proof.
  apply (getShuffledChoice_inverts_the_shuffle Model.question5).
  - apply (bool_decide_unpack _). vm_compute. exact I.
  - apply (bool_decide_unpack _). vm_compute. exact I.
Defined.

End HotSeatQuestionMore.

(** * Properties of the hot seat action button *)

Module HotSeatActionButtonFacts.

Import HotSeatActionButton.

Section Facts.

Context {Pixels : Type} {canvas : Canvas Pixels}.
Implicit Types b : HotSeatActionButton.t Pixels.

(** X6. A click sends at most one message: the socket event of the
    button, on its socket, and only when both are set and the point is in
    the path.  Nothing is logged exactly when no socket is set, a click
    can throw only where [isPointInPath] does, and a button as the
    constructor leaves it ignores every click. *)
Theorem onClick_sends_the_socket_event_or_nothing b (px py : Z) :
  let r := _onClick b px py in
  (sent r = []
   ∨ ∃ s ev,
       socket b = Some s ∧ socketEvent b = Some ev ∧
       isPointInPath (button b) px py = Some true ∧
       sent r = [(s, Some ev)]) ∧
  (console r = [] ↔ socket b = None) ∧
  (threw r = true →
   is_Some (socket b) ∧ is_Some (socketEvent b) ∧
   isPointInPath (button b) px py = None) ∧
  _onClick (constructor b) px py = Outcome [] [] false.
Proof.
  cbv zeta. unfold _onClick at 1 2 3 4, isMouseHovering.
  destruct (socket b) as [s|]; [| by repeat split; auto].
  destruct (socketEvent b) as [ev|]; cbn [is_defined].
  - destruct (isPointInPath (button b) px py) as [[]|] eqn:Hpath;
      cbn [sent console threw].
    + split; [right; by exists s, ev |]. by repeat split.
    + split; [by left |]. by repeat split.
    + split; [by left |]. split; [done |]. by repeat split.
  - cbn [sent console threw]. split; [by left |]. by repeat split.
Qed.

(** X7. [draw] leaves the fill style, the stroke style and the line width
    of the context as it found them, whatever drawing the text does to
    them, and makes the button the ellipse around its position; drawing
    again gives the same button.  After [draw], a click is sent exactly
    when the point is in that ellipse and the socket and its event are
    set. *)
Theorem draw_restores_the_styles b :
  let b' := draw b in
  fillStyle (context_ b') = fillStyle (context_ b) ∧
  strokeStyle (context_ b') = strokeStyle (context_ b) ∧
  lineWidth (context_ b') = lineWidth (context_ b) ∧
  button b' = Some (Ellipse (x b) (y b) 60 36) ∧
  button (draw b') = button b' ∧
  socket b' = socket b ∧ socketEvent b' = socketEvent b ∧
  ∀ px py, sent (_onClick b' px py)
           = if is_defined (socket b) && is_defined (socketEvent b)
             then match isPointInPath (Some (Ellipse (x b) (y b) 60 36)) px py
                  with
                  | Some true =>
                      [(default 0%nat (socket b), socketEvent b)]
                  | _ => []
                  end
             else [].
Proof.
  cbv zeta. repeat split.
  intros px py. unfold _onClick, isMouseHovering, draw. cbn.
  destruct (socket b) as [s|]; [| done].
  destruct (socketEvent b) as [ev|]; [| done]. cbn.
  by destruct (isPointInPath _ px py) as [[]|].
Qed.

End Facts.

End HotSeatActionButtonFacts.

(** * Further properties of the game server *)

Module GameServerMore.

Import GameServer GameServerLogic GameServerLifecycle.

Section Rules.

Context {T E FFQ FFSession HSSession : Type} `{EqDecision T}.
Context {collaborators : Collaborators T E FFQ FFSession HSSession}.

Abbreviation M' := (M T E FFQ FFSession HSSession).
Implicit Types w : GameServer.world T E FFQ FFSession HSSession.

Lemma wp_bind {A B} (m : M' A) (f : A → M' B) Q R w :
  wp m (λ a, wp (f a) Q R) R w → wp (m ≫= f) Q R w.
Proof.
  unfold wp, mbind, M_bind. destruct (m w) as [[a|err] w']; done.
Qed.

Lemma wp_ret {A} (a : A) (Q : A → _ → Prop) R w :
  Q a w → wp (mret a) Q R w.
Proof. done. Qed.

Lemma wp_throw {A} err (Q : A → _ → Prop) R w :
  R err w → wp (throw err) Q R w.
Proof. done. Qed.

Lemma wp_get_this (Q : _ → _ → Prop) R w : Q w.1 w → wp get_this Q R w.
Proof. done. Qed.

Lemma wp_get_env (Q : _ → _ → Prop) R w : Q w.2 w → wp get_env Q R w.
Proof. done. Qed.

Lemma wp_modify_this f (Q : _ → _ → Prop) R w :
  Q () (f w.1, w.2) → wp (modify_this f) Q R w.
Proof. done. Qed.

Lemma wp_modify_env f (Q : _ → _ → Prop) R w :
  Q () (w.1, f w.2) → wp (modify_env f) Q R w.
Proof. done. Qed.

(** What [wp] says of the result and of the world reached. *)
Lemma wp_run {A} (m : M' A) Q R w :
  wp m Q R w →
  match (m w).1 with
  | Ok a => Q a (m w).2
  | Throw err => R err (m w).2
  end.
Proof. unfold wp. by destruct (m w) as [[a|err] w']. Qed.

End Rules.

(** One step of a method: a rule of [wp], a case of a [match], or the
    definition of the method at the head. *)
Ltac wp_unfold :=
  lazymatch goal with
  | |- wp (setOneChoiceHostStepDialog _) _ _ _ =>
      unfold setOneChoiceHostStepDialog
  | |- wp (_getOneChoiceHostStepDialog _) _ _ _ =>
      unfold _getOneChoiceHostStepDialog
  | |- wp _updateGame _ _ _ => unfold _updateGame
  | |- wp (updateGameForSocket _) _ _ _ => unfold updateGameForSocket
  | |- wp (enter _) _ _ _ => unfold enter
  | |- wp (logInfo _) _ _ _ => unfold logInfo
  | |- wp (emit _) _ _ _ => unfold emit
  | |- wp (setTimeout _ _) _ _ _ => unfold setTimeout
  | |- wp (clearTimeout _) _ _ _ => unfold clearTimeout
  | |- wp the_hotSeatPlayer _ _ _ => unfold the_hotSeatPlayer
  | |- wp the_hotSeatQuestion _ _ _ => unfold the_hotSeatQuestion
  | |- wp the_fastestFingerQuestion _ _ _ => unfold the_fastestFingerQuestion
  | |- wp (the_player _) _ _ _ => unfold the_player
  | |- wp (modify_player _ _) _ _ _ => unfold modify_player
  | |- wp (choice_of _) _ _ _ => unfold choice_of
  | |- wp (modify_serverState _) _ _ _ => unfold modify_serverState
  | |- wp the_serverState _ _ _ => unfold the_serverState
  | |- wp (showHostShowFastestFingerRules _ _) _ _ _ =>
      unfold showHostShowFastestFingerRules
  | |- wp (showHostCueFastestFingerQuestion _ _) _ _ _ =>
      unfold showHostCueFastestFingerQuestion
  | |- wp (showHostShowFastestFingerQuestionText _ _) _ _ _ =>
      unfold showHostShowFastestFingerQuestionText
  | |- wp (showHostCueFastestFingerThreeStrikes _ _) _ _ _ =>
      unfold showHostCueFastestFingerThreeStrikes
  | |- wp (showHostRevealFastestFingerQuestionChoices _ _) _ _ _ =>
      unfold showHostRevealFastestFingerQuestionChoices
  | |- wp (contestantFastestFingerChoose _ _) _ _ _ =>
      unfold contestantFastestFingerChoose
  | |- wp (fastestFingerTimeUp _ _) _ _ _ =>
      unfold fastestFingerTimeUp
  | |- wp (showHostCueFastestFingerAnswerRevealAudio _ _) _ _ _ =>
      unfold showHostCueFastestFingerAnswerRevealAudio
  | |- wp (showHostRevealFastestFingerAnswer _ _) _ _ _ =>
      unfold showHostRevealFastestFingerAnswer
  | |- wp (showHostRevealFastestFingerResults _ _) _ _ _ =>
      unfold showHostRevealFastestFingerResults
  | |- wp (showHostAcceptHotSeatPlayer _ _) _ _ _ =>
      unfold showHostAcceptHotSeatPlayer
  | |- wp (showHostCueHotSeatRules _ _) _ _ _ =>
      unfold showHostCueHotSeatRules
  | |- wp (showHostCueHotSeatQuestion _ _) _ _ _ =>
      unfold showHostCueHotSeatQuestion
  | |- wp (showHostShowHotSeatQuestionText _ _) _ _ _ =>
      unfold showHostShowHotSeatQuestionText
  | |- wp (showHostRevealHotSeatChoice _ _) _ _ _ =>
      unfold showHostRevealHotSeatChoice
  | |- wp (hotSeatChoose _ _) _ _ _ =>
      unfold hotSeatChoose
  | |- wp (contestantChoose _ _) _ _ _ =>
      unfold contestantChoose
  | |- wp (hotSeatFinalAnswer _ _) _ _ _ =>
      unfold hotSeatFinalAnswer
  | |- wp (showHostRevealHotSeatQuestionVictory _ _) _ _ _ =>
      unfold showHostRevealHotSeatQuestionVictory
  | |- wp showHostRevealHotSeatQuestionVictory_Continuation _ _ _ =>
      unfold showHostRevealHotSeatQuestionVictory_Continuation
  end.

Ltac wp_simpl :=
  cbn [fst snd playerMap serverState fastestFingerSession hotSeatSession
       currentForcedTimer currentSocketEvent timers nextTimer now logged
       emitted with_serverState with_playerMap with_currentSocketEvent
       with_currentForcedTimer with_fastestFingerSession with_hotSeatSession
       with_timers with_nextTimer with_logged with_emitted] in *.

Ltac wp_case x :=
  first
    [ match goal with H : x = _ |- _ => rewrite H end
    | let H := fresh "Hcase" in destruct x eqn:H ].

Ltac wp_step :=
  lazymatch goal with
  | |- wp (mbind _ _) _ _ _ => apply wp_bind
  | |- wp (mret _) _ _ _ => apply wp_ret
  | |- wp (throw _) _ _ _ => apply wp_throw
  | |- wp get_this _ _ _ => apply wp_get_this
  | |- wp get_env _ _ _ => apply wp_get_env
  | |- wp (modify_this _) _ _ _ => apply wp_modify_this
  | |- wp (modify_env _) _ _ _ => apply wp_modify_env
  | |- wp (match ?x with _ => _ end) _ _ _ => wp_case x
  | |- wp _ _ _ _ => wp_unfold
  end; wp_simpl.

Ltac wp_go := repeat wp_step.

(** Decides a closed proposition by computing. *)
Ltac by_computation := apply (bool_decide_unpack _); vm_compute; exact I.

(** Closes [timers_tracked] between a world and the one a method has
    reached from it. *)
Ltac timers_leaf Hfresh :=
  unfold timers_tracked, fresh in *; wp_simpl;
  (split; [| split]);
  [ intros ?h ?x Hx | lia | intros ?h ?x Hx Hnone ];
  repeat match goal with
  | H : <[_ := _]> _ !! _ = Some _ |- _ =>
      apply lookup_insert_Some in H; destruct H as [[<- <-] | [? H]]
  | H : delete _ _ !! _ = Some _ |- _ =>
      apply lookup_delete_Some in H; destruct H as [? H]
  end;
  first
    [ done
    | congruence
    | lia
    | match goal with
      | H : _ !! _ = Some _ |- _ => specialize (Hfresh _ _ H); lia
      end ].

Section More.

Context {T E FFQ FFSession HSSession : Type} `{EqDecision T}.
Context {collaborators : Collaborators T E FFQ FFSession HSSession}.

Implicit Types w : GameServer.world T E FFQ FFSession HSSession.
Implicit Types g : GameServer.t T E FFQ FFSession HSSession.
Implicit Types e : GameServer.env T E FFQ.
Implicit Types ss : ServerState T E FFQ.

(** *** How an event reaches a listener *)

Lemma lookup_listener_elem table name
    (f : option nat → payload → M T E FFQ FFSession HSSession unit) :
  lookup_listener table name = Some f → (name, f) ∈ table.
Proof.
  induction table as [|[n f'] table IH]; [done |].
  cbn [lookup_listener]. destruct (String.eqb n name) eqn:Heq.
  - apply String.eqb_eq in Heq as ->. intros [= ->]. by left.
  - intros Hf. right. by apply IH.
Qed.

Lemma react_unregistered (s : nat) name data w :
  name ∉ SOCKET_EVENTS → react (Message s name data) w = (Ok (), w).
Proof.
  intros Hname. cbn [react].
  destruct (list_find _ _) as [[i [n f]]|] eqn:Hfind; [| done].
  apply list_find_Some in Hfind as (Hi & Hn & _). cbn in Hn. subst n.
  apply list_elem_of_lookup_2 in Hi.
  unfold activateListenersForSocket in Hi.
  apply list_elem_of_fmap in Hi as (ev & [= -> _] & Hev). done.
Qed.

Lemma react_registered (s : nat) name data w :
  name ∈ SOCKET_EVENTS →
  react (Message s name data) w = call_by_name name (Some s) data w.
Proof.
  intros Hname. unfold SOCKET_EVENTS in Hname.
  repeat (apply elem_of_cons in Hname as [-> | Hname]; [reflexivity |]).
  by apply elem_of_nil in Hname.
Qed.

(** A message is ignored, or it names no method, or it runs a listener. *)
Lemma react_message (s : nat) name data w :
  ((name ∉ SOCKET_EVENTS) ∧ react (Message s name data) w = (Ok (), w))
  ∨ (name ∈ SOCKET_EVENTS ∧
     (react (Message s name data) w
      = (Throw (TypeError "this[socketEvent] is not a function"), w)
      ∨ ∃ f, (name, f) ∈ listeners ∧
             react (Message s name data) w = f (Some s) data w)).
Proof.
  destruct (decide (name ∈ SOCKET_EVENTS)) as [Hin | Hnin].
  - right. split; [done |]. rewrite react_registered by done.
    unfold call_by_name.
    destruct (lookup_listener listeners name) as [f|] eqn:Hf.
    + right. exists f. split; [by apply lookup_listener_elem | done].
    + by left.
  - left. split; [done |]. by apply react_unregistered.
Qed.

Lemma timerCallback_listener callback :
  ∃ name f,
    (name, f) ∈ (listeners (collaborators := collaborators)) ∧
    run_timerCallback callback = f None NoData.
Proof.
  destruct callback.
  - exists "showHostRevealFastestFingerQuestionChoices"%string,
      showHostRevealFastestFingerQuestionChoices.
    split; [unfold listeners; set_solver | done].
  - exists "fastestFingerTimeUp"%string, fastestFingerTimeUp.
    split; [unfold listeners; set_solver | done].
  - exists "showHostRevealHotSeatQuestionVictory_Continuation"%string,
      (λ _ _, showHostRevealHotSeatQuestionVictory_Continuation).
    split; [unfold listeners; set_solver | done].
Qed.

(** A timer that is not armed does nothing; an armed one is disarmed and
    runs a listener. *)
Lemma react_timer (h : nat) w :
  (timers w.2 !! h = None ∧ react (TimerFires h) w = (Ok (), w))
  ∨ ∃ x name f,
      timers w.2 !! h = Some x ∧
      (name, f) ∈ listeners ∧
      react (TimerFires h) w
      = f None NoData (w.1, with_timers (delete h (timers w.2)) w.2).
Proof.
  cbn [react]. unfold mbind, M_bind, get_env. cbn [snd].
  destruct (timers w.2 !! h) as [[callback ms]|] eqn:Harmed.
  - right. destruct (timerCallback_listener callback) as (name & f & Hf & Hrun).
    exists (callback, ms), name, f. repeat split; [done |].
    by rewrite Hrun.
  - left. split; [done |]. by destruct w.
Qed.

(** An event changes nothing, or throws before any listener runs, or runs
    one listener: from the world it found, or from that world with the timer
    that fired disarmed. *)
Lemma react_cases ev w :
  react ev w = (Ok (), w)
  ∨ (∃ err, react ev w = (Throw err, w))
  ∨ ∃ name f socket data w0,
      (name, f) ∈ listeners ∧
      react ev w = f socket data w0 ∧
      (w0 = w ∨ ∃ h x, timers w.2 !! h = Some x ∧
                       w0 = (w.1, with_timers (delete h (timers w.2)) w.2)).
Proof.
  destruct ev as [s name data | h].
  - destruct (react_message s name data w)
      as [[_ Hrun] | [_ [Hrun | (f & Hf & Hrun)]]].
    + by left.
    + right. left. by eexists.
    + right. right. exists name, f, (Some s), data, w. auto.
  - destruct (react_timer h w)
      as [[_ Hrun] | (x & name & f & Harmed & Hf & Hrun)].
    + by left.
    + right. right. exists name, f, None, NoData. eexists.
      split; [done |]. split; [done |]. right. by exists h, x.
Qed.

End More.

Section Invariants.

Context {T E FFQ FFSession HSSession : Type} `{EqDecision T}.
Context {collaborators : Collaborators T E FFQ FFSession HSSession}.

Implicit Types w : GameServer.world T E FFQ FFSession HSSession.
Implicit Types g : GameServer.t T E FFQ FFSession HSSession.
Implicit Types e : GameServer.env T E FFQ.
Implicit Types ss : ServerState T E FFQ.

Lemma wp_post {A} (m : M T E FFQ FFSession HSSession A) (P : _ → Prop) w :
  wp m (λ _, P) (λ _, P) w → P (m w).2.
Proof. unfold wp. by destruct (m w) as [[a|err] w']. Qed.


(** *** The listeners of a socket *)

(** X8. [activateListenersForSocket] registers one function for each of
    the 29 socket events, which are all different, and for nothing else: a
    message of any other name is ignored.  The continuation of a victory
    is the one listener method that no message reaches. *)
Theorem activateListenersForSocket_registers_socket_events (s : nat) :
  (activateListenersForSocket s).*1 = SOCKET_EVENTS ∧
  NoDup SOCKET_EVENTS ∧
  (∀ name data w,
     name ∉ SOCKET_EVENTS → react (Message s name data) w = (Ok (), w)) ∧
  (∀ name,
     name ∈ listener_names (collaborators := collaborators) →
     name ∉ SOCKET_EVENTS →
     name = "showHostRevealHotSeatQuestionVictory_Continuation"%string).
Proof.
  split; [reflexivity |]. split; [by_computation |].
  split; [intros; by apply react_unregistered |].
  intros name Hname Hnot. unfold listener_names, listeners in Hname.
  cbn [fmap list_fmap fst] in Hname.
  repeat (apply elem_of_cons in Hname as [-> | Hname];
          [first [reflexivity | exfalso; apply Hnot; by_computation] |]).
  by apply elem_of_nil in Hname.
Qed.

Lemma removeAllListeners_all {L} (names : list string)
    (registry : list (string * L)) :
  fold_left (λ r socketEvent, removeAllListeners socketEvent r) names registry
  = filter (λ l, l.1 ∉ names) registry.
Proof.
  revert registry. induction names as [|name names IH]; intros registry.
  - cbn [fold_left]. induction registry as [|l registry IHr]; [done |].
    rewrite filter_cons_True by apply not_elem_of_nil. by f_equal.
  - cbn [fold_left]. rewrite IH. unfold removeAllListeners.
    rewrite list_filter_filter. apply list_filter_iff. intros l.
    rewrite not_elem_of_cons. tauto.
Qed.

Lemma activate_app {L} (ls registry : list (string * L)) :
  activate ls registry = registry ++ ls.
Proof.
  revert registry. induction ls as [|l ls IH]; intros registry.
  - by rewrite app_nil_r.
  - cbn [activate fold_left]. unfold activate in IH. rewrite IH.
    unfold socket_on. rewrite <- app_assoc. by destruct l.
Qed.

(** X9. [activateListenersForSocket] adds its listeners after those the
    socket has, and [deactivateListenersForSocket] after it leaves the
    listeners the socket had for other names: those it had for a socket
    event are removed with the ones that were added. *)
Theorem deactivate_after_activate (s : nat)
    (registry :
       list (string * (payload → M T E FFQ FFSession HSSession ()))) :
  activate (activateListenersForSocket s) registry
  = registry ++ activateListenersForSocket s ∧
  deactivateListenersForSocket
    (activate (activateListenersForSocket s) registry)
  = filter (λ l, l.1 ∉ SOCKET_EVENTS) registry.
Proof.
  split; [apply activate_app |].
  unfold deactivateListenersForSocket.
  rewrite removeAllListeners_all, activate_app, filter_app.
  rewrite <- (app_nil_r (filter _ registry)) at 2. by f_equal.
Qed.

(** *** The current socket event *)

(** X10. Each of the 17 listeners of a phase first records its own name as
    the current socket event and logs it: that has happened when it
    returns and also when it throws. *)
Theorem phase_listeners_record_their_name :
  Forall (λ name,
            ∀ socket data w,
              let w' := (call_by_name name socket data w).2 in
              currentSocketEvent w'.1 = Some name ∧
              logged w'.2 = name :: logged w.2)
         phase_names.
Proof.
  unfold phase_names.
  repeat (apply Forall_cons; split); [.. | by apply Forall_nil_2].
  all: intros socket data w; destruct w as [g e]; cbv zeta;
    cbv [call_by_name lookup_listener listeners String.eqb Ascii.eqb
         Bool.eqb];
    match goal with
    | |- currentSocketEvent (?m _).2.1 = Some ?n ∧ _ =>
        apply (wp_post m
                 (λ w', currentSocketEvent w'.1 = Some n ∧
                        logged w'.2 = n :: logged e))
    end;
    wp_go; done.
Qed.


(** *** In and outside a game *)

Lemma listeners_outside_a_game :
  Forall (λ l,
            ∀ socket data w,
              serverState w.1 = None →
              wp (l.2 socket data) (λ _ _, False)
                 (λ _ w',
                    serverState w'.1 = None ∧
                    currentForcedTimer w'.1 = currentForcedTimer w.1 ∧
                    emitted w'.2 = emitted w.2)
                 w)
         (listeners (collaborators := collaborators)).
Proof.
  unfold listeners.
  repeat (apply Forall_cons; split); [.. | by apply Forall_nil_2].
  all: intros socket data w Hss; destruct w as [g e]; cbn [fst snd] in *;
    wp_go; done.
Qed.

Lemma listeners_in_a_game :
  Forall (λ l,
            ∀ socket data w,
              is_Some (serverState w.1) →
              wp (l.2 socket data) (λ _ w', is_Some (serverState w'.1))
                 (λ _ w', is_Some (serverState w'.1)) w)
         (listeners (collaborators := collaborators)).
Proof.
  unfold listeners.
  repeat (apply Forall_cons; split); [.. | by apply Forall_nil_2].
  all: intros socket data w Hss; destruct w as [g e]; cbn [fst snd] in *;
    wp_go; done.
Qed.

(** X11. No message and no timer starts or ends a game: after an event
    the game server is in a game exactly when it was before. *)
Theorem events_never_start_or_end_a_game ev w :
  is_defined (serverState (react ev w).2.1) = is_defined (serverState w.1).
Proof.
  destruct (react_cases ev w)
    as [Hrun | [[err Hrun] |
                (name & f & socket & data & w0 & Hf & Hrun & Hw0)]];
    rewrite Hrun; [done | done |].
  assert (Hw0' : serverState w0.1 = serverState w.1)
    by (by destruct Hw0 as [-> | (h & x & _ & ->)]).
  rewrite <- Hw0'. destruct (serverState w0.1) as [ss|] eqn:Hss.
  - pose proof (wp_post _ (λ w', is_Some (serverState w'.1)) _
      (proj1 (Forall_forall _ _) listeners_in_a_game _ Hf socket data w0
         ltac:(by rewrite Hss))) as [ss' Hss'].
    cbn [snd] in Hss'. by rewrite Hss'.
  - pose proof (proj1 (Forall_forall _ _) listeners_outside_a_game
                  _ Hf socket data w0 Hss) as Hwp.
    apply wp_run in Hwp. cbn [snd] in Hwp.
    destruct (f socket data w0) as [[[]|err] w']; [done |].
    cbn [fst snd] in *. by destruct Hwp as (-> & _).
Qed.

(** X12. Outside a game no event emits anything or changes the forced
    timer the game server remembers, and every message that names a socket
    event makes its listener throw. *)
Theorem events_outside_a_game ev w :
  serverState w.1 = None →
  let r := react ev w in
  serverState r.2.1 = None ∧
  currentForcedTimer r.2.1 = currentForcedTimer w.1 ∧
  emitted r.2.2 = emitted w.2 ∧
  ∀ (socket : nat) name data,
    ev = Message socket name data →
    name ∈ SOCKET_EVENTS →
    ∃ err, r.1 = Throw err.
Proof.
  intros Hss. cbv zeta. destruct ev as [s name data | h].
  - destruct (react_message s name data w)
      as [[Hname Hrun] | [Hname [Hrun | (f & Hf & Hrun)]]].
    + rewrite Hrun. repeat split; [done |].
      by intros ? ? ? [= <- <- <-] Hin.
    + rewrite Hrun. repeat split; [done |]. intros. by eexists.
    + rewrite Hrun.
      pose proof (proj1 (Forall_forall _ _) listeners_outside_a_game
                    _ Hf (Some s) data w Hss) as Hwp.
      apply wp_run in Hwp. cbn [snd] in Hwp.
      destruct (f (Some s) data w) as [[[]|err] w']; [done |].
      cbn [fst snd] in *. destruct Hwp as (? & ? & ?).
      repeat split; [done.. |]. intros. by eexists.
  - destruct (react_timer h w) as [[_ Hrun] | (x & name & f & _ & Hf & Hrun)].
    + rewrite Hrun. repeat split; [done |]. by intros ? ? ? [=].
    + rewrite Hrun.
      pose proof (proj1 (Forall_forall _ _) listeners_outside_a_game
                    _ Hf None NoData
                    (w.1, with_timers (delete h (timers w.2)) w.2) Hss)
        as Hwp.
      apply wp_run in Hwp. cbn [snd] in Hwp.
      destruct (f None NoData _) as [[[]|err] w']; [done |].
      cbn [fst snd] in *. destruct Hwp as (? & ? & ?).
      repeat split; [done.. |]. by intros ? ? ? [=].
Qed.

(** *** Timers *)

Lemma listeners_keep_timers_tracked :
  Forall (λ l,
            ∀ socket data w,
              fresh w.2 →
              wp (l.2 socket data) (λ _, timers_tracked w)
                 (λ _, timers_tracked w) w)
         (listeners (collaborators := collaborators)).
Proof.
  unfold listeners.
  repeat (apply Forall_cons; split); [.. | by apply Forall_nil_2].
  all: intros socket data w Hfresh; destruct w as [g e]; cbn [fst snd] in *;
    wp_go; timers_leaf Hfresh.
Qed.

(** X13. While the armed timers have handles that [setTimeout] has handed
    out, they still have after an event, no handle is handed out again, and
    a timer the event armed is the one the game server remembers as its
    current forced timer. *)
Theorem events_keep_timers_tracked ev w :
  fresh w.2 → timers_tracked w (react ev w).2.
Proof.
  intros Hfresh. destruct ev as [s name data | h].
  - destruct (react_message s name data w)
      as [[Hname Hrun] | [Hname [Hrun | (f & Hf & Hrun)]]]; rewrite Hrun.
    + destruct w as [g e]. timers_leaf Hfresh.
    + destruct w as [g e]. timers_leaf Hfresh.
    + by apply wp_post,
        (proj1 (Forall_forall _ _) listeners_keep_timers_tracked _ Hf).
  - destruct (react_timer h w)
      as [[_ Hrun] | (x & name & f & Harmed & Hf & Hrun)]; rewrite Hrun.
    + destruct w as [g e]. timers_leaf Hfresh.
    + destruct w as [g e]. cbn [fst snd] in *.
      assert (Hfresh' : fresh (with_timers (delete h (timers e)) e)).
      { intros h' x' Hx'. cbn in Hx'.
        apply lookup_delete_Some in Hx' as [_ Hx']. by eapply Hfresh. }
      pose proof (wp_post _ _ _
        (proj1 (Forall_forall _ _) listeners_keep_timers_tracked _ Hf
           None NoData (g, with_timers (delete h (timers e)) e) Hfresh'))
        as (Hf' & Hnext & Htracked).
      repeat split; [done | done |].
      intros h' x' Hx' Hnone. eapply Htracked; [done |].
      cbn. by rewrite lookup_delete_None; right.
Qed.

(** X14. A listener that arms a forced timer arms one timer, with its own
    callback and delay, remembers it as the current one and leaves every
    timer armed that was armed before; when it throws, no timer has
    changed. *)
Theorem arming_listeners_clear_nothing :
  Forall (λ l,
            ∀ socket data w,
              wp (call_by_name l.1 socket data)
                 (λ _ w',
                    timers w'.2 = <[nextTimer w.2 := l.2]> (timers w.2) ∧
                    nextTimer w'.2 = S (nextTimer w.2) ∧
                    currentForcedTimer w'.1 = Some (nextTimer w.2))
                 (λ _ w',
                    timers w'.2 = timers w.2 ∧
                    nextTimer w'.2 = nextTimer w.2 ∧
                    currentForcedTimer w'.1 = currentForcedTimer w.1)
                 w)
         arming_listeners.
Proof.
  unfold arming_listeners.
  repeat (apply Forall_cons; split); [.. | by apply Forall_nil_2].
  all: intros socket data w; destruct w as [g e]; cbn [fst snd];
    cbv [call_by_name lookup_listener listeners String.eqb Ascii.eqb
         Bool.eqb];
    wp_go; done.
Qed.

Lemma listeners_keep_currentForcedTimer :
  Forall (λ l,
            ∀ socket data w,
              is_Some (currentForcedTimer w.1) →
              wp (l.2 socket data)
                 (λ _ w', is_Some (currentForcedTimer w'.1))
                 (λ _ w', is_Some (currentForcedTimer w'.1)) w)
         (listeners (collaborators := collaborators)).
Proof.
  unfold listeners.
  repeat (apply Forall_cons; split); [.. | by apply Forall_nil_2].
  all: intros socket data w Hh; destruct w as [g e]; cbn [fst snd] in *;
    wp_go; done.
Qed.

(** X15. Once the game server remembers a forced timer it remembers one
    after every event, also after that timer fired or was cleared. *)
Theorem currentForcedTimer_is_never_reset ev w :
  is_Some (currentForcedTimer w.1) →
  is_Some (currentForcedTimer (react ev w).2.1).
Proof.
  intros Hh.
  destruct (react_cases ev w)
    as [Hrun | [[err Hrun] |
                (name & f & socket & data & w0 & Hf & Hrun & Hw0)]];
    rewrite Hrun; [done | done |].
  apply (wp_post _ (λ w', is_Some (currentForcedTimer w'.1))),
    (proj1 (Forall_forall _ _) listeners_keep_currentForcedTimer _ Hf).
  by destruct Hw0 as [-> | (h & x & _ & ->)].
Qed.

(** *** The StepDialog of the show host *)

Lemma listeners_keep_dialog_ok :
  Forall (λ l,
            ∀ socket data w,
              showHostDialog_ok w →
              wp (l.2 socket data) (λ _, showHostDialog_ok)
                 (λ _, showHostDialog_ok) w)
         (listeners (collaborators := collaborators)).
Proof.
  unfold listeners.
  repeat (apply Forall_cons; split); [.. | by apply Forall_nil_2].
  all: intros socket data w Hok; destruct w as [g e]; cbn [fst snd] in *;
    wp_go.
  all: unfold showHostDialog_ok in *; wp_simpl; intros ss' d' Hss' Hd'.
  all: try (by eapply Hok).
  all: simplify_eq; cbn in Hd'; try (by eapply Hok); simplify_eq.
  all: try (vm_compute; reflexivity).
Qed.

(** X16. After every event the StepDialog of the show host, if there is
    one, either offers actions and has no timeout or offers none and has a
    timeout function, and leads to socket events only, provided that was so
    before the event. *)
Theorem events_keep_showHostDialog_ok ev w :
  showHostDialog_ok w → showHostDialog_ok (react ev w).2.
Proof.
  intros Hok.
  destruct (react_cases ev w)
    as [Hrun | [[err Hrun] |
                (name & f & socket & data & w0 & Hf & Hrun & Hw0)]];
    rewrite Hrun; [done | done |].
  apply wp_post,
    (proj1 (Forall_forall _ _) listeners_keep_dialog_ok _ Hf).
  by destruct Hw0 as [-> | (h & x & _ & ->)].
Qed.

(** *** Emissions *)

Lemma listeners_emit_last :
  Forall (λ l,
            ∀ socket data w,
              wp (l.2 socket data) (λ _ w', up_to_date w')
                 (λ _ w', emitted w'.2 = emitted w.2) w)
         (listeners (collaborators := collaborators)).
Proof.
  unfold listeners.
  repeat (apply Forall_cons; split); [.. | by apply Forall_nil_2].
  all: intros socket data w; destruct w as [g e]; cbn [fst snd] in *;
    wp_go; try done.
  all: unfold up_to_date; wp_simpl; by eexists _, _.
Qed.

(** X17. An event that returns has changed nothing, or the latest emission
    carries the server state and the socket event the game server ends
    with; an event that throws has emitted nothing. *)
Theorem updates_are_sent_last ev w :
  match (react ev w).1 with
  | Ok _ => (react ev w).2 = w ∨ up_to_date (react ev w).2
  | Throw _ => emitted (react ev w).2.2 = emitted w.2
  end.
Proof.
  destruct (react_cases ev w)
    as [Hrun | [[err Hrun] |
                (name & f & socket & data & w0 & Hf & Hrun & Hw0)]];
    rewrite Hrun; [by left | done |].
  pose proof (wp_run _ _ _ _
    (proj1 (Forall_forall _ _) listeners_emit_last _ Hf socket data w0)) as Hwp.
  cbn [snd] in Hwp.
  destruct (f socket data w0) as [[[]|err] w']; cbn [fst snd] in *.
  - by right.
  - rewrite Hwp. by destruct Hw0 as [-> | (h & x & _ & ->)].
Qed.

(** *** Contestants *)

(** X18. The two listeners through which contestants answer change no
    player but the sender, add no player and remove none, and take nothing
    from the question sessions. *)
Theorem contestant_listeners_touch_the_sender_only :
  Forall (λ name,
            ∀ socket data w,
              let w' := (call_by_name name socket data w).2 in
              (∀ k, socket ≠ Some k →
                    playerMap w'.1 !! k = playerMap w.1 !! k) ∧
              dom (playerMap w'.1) = dom (playerMap w.1) ∧
              fastestFingerSession w'.1 = fastestFingerSession w.1 ∧
              hotSeatSession w'.1 = hotSeatSession w.1)
         contestant_names.
Proof.
  unfold contestant_names.
  repeat (apply Forall_cons; split); [.. | by apply Forall_nil_2].
  all: intros socket data w; destruct w as [g e]; cbv zeta;
    cbv [call_by_name lookup_listener listeners String.eqb Ascii.eqb
         Bool.eqb];
    match goal with
    | |- context [(?m (g, e)).2] =>
        apply (wp_post m
                 (λ w', (∀ k, socket ≠ Some k →
                              playerMap w'.1 !! k = playerMap g !! k) ∧
                        dom (playerMap w'.1) = dom (playerMap g) ∧
                        fastestFingerSession w'.1 = fastestFingerSession g ∧
                        hotSeatSession w'.1 = hotSeatSession g))
    end;
    wp_go;
    (split;
     [ intros k' Hk'; try done; apply lookup_alter_ne; congruence
     | split; [try done; apply dom_alter_L | done] ]).
Qed.

(** *** Grading fastest finger *)

(** X19. In a game with a fastest finger question,
    [showHostRevealFastestFingerResults] returns and gives every player
    the score of the choices that player made.  With no question nobody is
    scored, and the listener returns only when there is no player. *)
Theorem showHostRevealFastestFingerResults_grades socket data w ss :
  serverState w.1 = Some ss →
  let r := showHostRevealFastestFingerResults socket data w in
  match fastestFingerQuestion ss with
  | Some q =>
      r.1 = Ok () ∧
      playerMap r.2.1
      = (λ player,
           with_fastestFingerScore
             (Some (ffq_getAnswerScore q (fastestFingerChoices player)))
             player) <$> playerMap w.1
  | None =>
      playerMap r.2.1 = playerMap w.1 ∧
      (r.1 = Ok () ↔ playerMap w.1 = ∅)
  end.
Proof.
  intros Hss. destruct w as [g e]. cbn [fst snd] in *. cbv zeta.
  assert (Hwp : wp (showHostRevealFastestFingerResults socket data)
    (λ _ w',
       match fastestFingerQuestion ss with
       | Some q =>
           playerMap w'.1
           = (λ player,
                with_fastestFingerScore
                  (Some (ffq_getAnswerScore q (fastestFingerChoices player)))
                  player) <$> playerMap g
       | None => playerMap w'.1 = playerMap g ∧ playerMap g = ∅
       end)
    (λ _ w',
       fastestFingerQuestion ss = None ∧
       playerMap w'.1 = playerMap g ∧ playerMap g ≠ ∅)
    (g, e)).
  { wp_go; try done.
    all: destruct (fastestFingerQuestion ss); try done.
    all: match goal with
         | Hempty : playerMap _ = ∅ |- _ =>
             rewrite Hempty; by rewrite fmap_empty
         end. }
  apply wp_run in Hwp.
  destruct (showHostRevealFastestFingerResults socket data (g, e))
    as [[[]|err] w']; cbn [fst snd] in *.
  - destruct (fastestFingerQuestion ss) as [q|]; [done |].
    destruct Hwp as [Hpm Hempty]. by rewrite Hpm.
  - destruct Hwp as (Hq & Hpm & Hne).
    rewrite Hq. split; [done |]. split; [done | by intros ?].
Qed.

(** *** The hot seat question index *)

Lemma showHostCueHotSeatQuestion_step socket data w ss :
  serverState w.1 = Some ss →
  wp (showHostCueHotSeatQuestion socket data)
     (λ _ w', ∃ ss', serverState w'.1 = Some ss' ∧
                     hotSeatQuestionIndex ss' = hotSeatQuestionIndex ss + 1)
     (λ _ _, False) w.
Proof.
  intros Hss. destruct w as [g e]. cbn [fst snd] in *.
  wp_go; by eexists.
Qed.

(** X20. In a game, [n] messages [showHostCueHotSeatQuestion] in a row
    raise the hot seat question index by [n], as long as the index stays
    a safe integer: each of the cues returns and none is held back by the
    number of questions. *)
Theorem showHostCueHotSeatQuestion_counts (n : nat) (s : nat) data w ss :
  serverState w.1 = Some ss →
  is_safe_integer (hotSeatQuestionIndex ss) →
  is_safe_integer (hotSeatQuestionIndex ss + Z.of_nat n) →
  let cue := Message s "showHostCueHotSeatQuestion" data in
  (∃ ss',
     serverState (run (replicate n cue) w).1 = Some ss' ∧
     hotSeatQuestionIndex ss' = hotSeatQuestionIndex ss + Z.of_nat n) ∧
  ∀ k, (k < n)%nat → (react cue (run (replicate k cue) w)).1 = Ok ().
Proof.
  unfold is_safe_integer, MAX_SAFE_INTEGER. cbv zeta.
  revert w ss. induction n as [|n IH]; intros w ss Hss Hsafe Hsafe'.
  - split; [| lia]. exists ss. split; [done | lia].
  - pose proof (wp_run _ _ _ _
      (showHostCueHotSeatQuestion_step (Some s) data w ss Hss)) as Hwp.
    assert (Hreact :
      react (Message s "showHostCueHotSeatQuestion" data) w
      = showHostCueHotSeatQuestion (Some s) data w).
    { rewrite react_registered
        by (apply (bool_decide_unpack _); vm_compute; exact I).
      reflexivity. }
    cbn [replicate run]. rewrite Hreact.
    destruct (showHostCueHotSeatQuestion (Some s) data w)
      as [[[]|err] w']; cbn [fst snd] in *; [| done].
    destruct Hwp as (ss1 & Hss1 & Hidx).
    destruct (IH w' ss1 Hss1) as ((ss' & Hss' & Hidx') & Hok); [lia.. |].
    split.
    + exists ss'. split; [done | lia].
    + intros [|k] Hk.
      * cbn [replicate run]. by rewrite Hreact.
      * cbn [replicate run]. rewrite Hreact. cbn [snd].
        apply Hok. lia.
Qed.

(** *** Starting and ending a game *)

Context {lifecycle : LifecycleCollaborators T E FFQ}.

(** X21. [startGame] returns, from any state of the game server: then a
    game is on, in the phase [showHostShowFastestFingerRules], the clients
    have been sent that state, and the forced timers are as they were. *)
Theorem startGame_enters_the_first_phase options w :
  let r := startGame options w in
  r.1 = Ok () ∧
  (isInGame r.2).1 = Ok true ∧
  currentSocketEvent r.2.1 = Some "showHostShowFastestFingerRules"%string ∧
  logged r.2.2 = "showHostShowFastestFingerRules"%string :: logged w.2 ∧
  up_to_date r.2 ∧
  timers r.2.2 = timers w.2 ∧
  currentForcedTimer r.2.1 = currentForcedTimer w.1.
Proof.
  destruct w as [g e]. cbv zeta.
  assert (Hwp : wp (startGame options)
    (λ _ w',
       (isInGame w').1 = Ok true ∧
       currentSocketEvent w'.1
       = Some "showHostShowFastestFingerRules"%string ∧
       logged w'.2 = "showHostShowFastestFingerRules"%string :: logged e ∧
       up_to_date w' ∧
       timers w'.2 = timers e ∧
       currentForcedTimer w'.1 = currentForcedTimer g)
    (λ _ _, False) (g, e)).
  { unfold startGame. wp_go.
    all: repeat split; try done.
    all: unfold up_to_date; wp_simpl; by eexists _, _. }
  apply wp_run in Hwp.
  by destruct (startGame options (g, e)) as [[[]|err] w'].
Qed.

(** X22. [endGame] returns, and then no game is on, the players left are
    reset, nothing was logged or emitted, and the timers are as they were
    but for the current forced timer, cleared when a game was on. *)
Theorem endGame_ends_the_game w :
  let r := endGame w in
  r.1 = Ok () ∧
  (isInGame r.2).1 = Ok false ∧
  playerMap r.2.1 = reset <$> removeInactivePlayers (playerMap w.1) ∧
  currentForcedTimer r.2.1 = currentForcedTimer w.1 ∧
  logged r.2.2 = logged w.2 ∧
  emitted r.2.2 = emitted w.2 ∧
  ∀ h,
    timers r.2.2 !! h
    = if bool_decide (is_Some (serverState w.1)
                      ∧ currentForcedTimer w.1 = Some h)
      then None else timers w.2 !! h.
Proof.
  destruct w as [g e]. cbv zeta.
  assert (Hwp : wp endGame
    (λ _ w',
       (isInGame w').1 = Ok false ∧
       playerMap w'.1 = reset <$> removeInactivePlayers (playerMap g) ∧
       currentForcedTimer w'.1 = currentForcedTimer g ∧
       logged w'.2 = logged e ∧
       emitted w'.2 = emitted e ∧
       ∀ h,
         timers w'.2 !! h
         = if bool_decide (is_Some (serverState g)
                           ∧ currentForcedTimer g = Some h)
           then None else timers e !! h)
    (λ _ _, False) (g, e)).
  { unfold endGame. wp_go.
    all: repeat split; try done.
    all: intros h'; destruct (serverState g) eqn:Hss; cbn in *; try done.
    all: try (rewrite bool_decide_eq_false_2 by (by intros [[? ?] ?]); done).
    match goal with |- delete ?n _ !! _ = _ =>
      destruct (decide (n = h')) as [-> | Hne] end.
    - rewrite lookup_delete_eq, bool_decide_eq_true_2; [done |].
      split; [by eexists | done].
    - rewrite lookup_delete_ne by done.
      rewrite bool_decide_eq_false_2; [done | by intros [_ [= ?]]]. }
  apply wp_run in Hwp.
  by destruct (endGame (g, e)) as [[[]|err] w'].
Qed.

(** X23. A forced timer that is armed and is not the current one is still
    armed after [endGame], and its callback throws when it fires. *)
Theorem endGame_leaves_the_other_timers w h x :
  timers w.2 !! h = Some x →
  currentForcedTimer w.1 ≠ Some h →
  let w' := (endGame w).2 in
  timers w'.2 !! h = Some x ∧
  ∃ err, (react (TimerFires h) w').1 = Throw err.
Proof.
  intros Harmed Hother. cbv zeta.
  assert (Hwp : wp endGame
    (λ _ w', serverState w'.1 = None ∧ timers w'.2 !! h = Some x)
    (λ _ w', serverState w'.1 = None ∧ timers w'.2 !! h = Some x) w).
  { destruct w as [g e]. cbn [fst snd] in *. unfold endGame. wp_go.
    all: split; [done |]; try done.
    rewrite lookup_delete_ne; [done | congruence]. }
  apply wp_post in Hwp as [Hss Hh].
  split; [done |].
  destruct (react_timer h (endGame w).2)
    as [[Hnone _] | (x' & name & f & _ & Hf & Hrun)]; [congruence |].
  rewrite Hrun.
  pose proof (proj1 (Forall_forall _ _) listeners_outside_a_game
                _ Hf None NoData
                ((endGame w).2.1,
                 with_timers (delete h (timers (endGame w).2.2))
                             (endGame w).2.2) Hss) as Hrun'.
  apply wp_run in Hrun'. cbn [snd] in Hrun'.
  destruct (f None NoData _) as [[[]|err] w']; [done | by eexists].
Qed.

End Invariants.

(** *** The properties on a concrete game *)

Lemma events_outside_a_game_witness :
  let ev := Message 1 "showHostCueHotSeatQuestion" NoData in
  let r := react ev Model.new_world in
  serverState r.2.1 = None ∧
  currentForcedTimer r.2.1 = currentForcedTimer Model.new_world.1 ∧
  emitted r.2.2 = emitted Model.new_world.2 ∧
  ∀ (socket : nat) name data,
    ev = Message socket name data →
    name ∈ SOCKET_EVENTS →
    ∃ err, r.1 = Throw err.
Proof.
  apply (events_outside_a_game
           (Message 1 "showHostCueHotSeatQuestion" NoData) Model.new_world).
  reflexivity.
Defined.

(** Two timers are armed in [Model.rearmed_world], and the second is the
    one the game server remembers. *)
Example rearmed_world_timers :
  timers Model.rearmed_world.2
  = {[ 1%nat := (CallRevealFastestFingerQuestionChoices, 2500);
       2%nat := (CallRevealFastestFingerQuestionChoices, 2500) ]} ∧
  currentForcedTimer Model.rearmed_world.1 = Some 2%nat.
Proof. split; vm_compute; reflexivity. Qed.

Lemma events_keep_timers_tracked_witness :
  timers_tracked Model.rearmed_world
    (react (TimerFires 1) Model.rearmed_world).2.
Proof.
  apply (events_keep_timers_tracked (TimerFires 1) Model.rearmed_world).
  change (map_Forall (λ h _, (h < nextTimer Model.rearmed_world.2)%nat)
                     (timers Model.rearmed_world.2)).
  by_computation.
Defined.

Lemma currentForcedTimer_is_never_reset_witness :
  is_Some
    (currentForcedTimer
       (react (Message 1 "fastestFingerTimeUp" NoData)
              Model.three_strikes_world).2.1).
Proof.
  apply (currentForcedTimer_is_never_reset
           (Message 1 "fastestFingerTimeUp" NoData)
           Model.three_strikes_world).
  exists 0%nat. reflexivity.
Defined.

Lemma events_keep_showHostDialog_ok_witness :
  showHostDialog_ok
    (react (Message 1 "showHostCueFastestFingerAnswerRevealAudio" NoData)
           Model.time_up_world).2.
Proof.
  apply (events_keep_showHostDialog_ok
           (Message 1 "showHostCueFastestFingerAnswerRevealAudio" NoData)
           Model.time_up_world).
  intros ss d Hss Hd. vm_compute in Hss. injection Hss as <-.
  vm_compute in Hd. injection Hd as <-. reflexivity.
Defined.

Lemma showHostRevealFastestFingerResults_grades_witness :
  let r :=
    showHostRevealFastestFingerResults None NoData
      Model.three_strikes_world in
  r.1 = Ok () ∧
  playerMap r.2.1
  = (λ player,
       with_fastestFingerScore
         (Some (ffq_getAnswerScore Model.fastest_finger_question
                                   (fastestFingerChoices player)))
         player) <$> playerMap Model.three_strikes_world.1.
Proof.
  apply (showHostRevealFastestFingerResults_grades
           None NoData Model.three_strikes_world Model.three_strikes_state).
  reflexivity.
Defined.

Lemma showHostCueHotSeatQuestion_counts_witness :
  let cue := Message 1 "showHostCueHotSeatQuestion" NoData in
  (∃ ss',
     serverState (run (replicate 3 cue) Model.hot_seat_world).1 = Some ss' ∧
     hotSeatQuestionIndex ss'
     = hotSeatQuestionIndex Model.hot_seat_state + Z.of_nat 3) ∧
  ∀ k, (k < 3)%nat →
       (react cue (run (replicate k cue) Model.hot_seat_world)).1 = Ok ().
Proof.
  apply (showHostCueHotSeatQuestion_counts
           3 1 NoData Model.hot_seat_world Model.hot_seat_state).
  - reflexivity.
  - unfold is_safe_integer, MAX_SAFE_INTEGER. cbn. lia.
  - unfold is_safe_integer, MAX_SAFE_INTEGER. cbn. lia.
Defined.

Lemma endGame_leaves_the_other_timers_witness :
  let w' := (endGame Model.rearmed_world).2 in
  timers w'.2 !! 1%nat
  = Some (CallRevealFastestFingerQuestionChoices, 2500) ∧
  ∃ err, (react (TimerFires 1) w').1 = Throw err.
Proof.
  apply (endGame_leaves_the_other_timers
           Model.rearmed_world 1
           (CallRevealFastestFingerQuestionChoices, 2500)).
  - vm_compute. reflexivity.
  - vm_compute. discriminate.
Defined.

End GameServerMore.
